(** * Crafting inventory: the in-memory record store and its query pipeline

    A shallow embedding of [AppState] from [crafting_inventory_tk.py]
    (the supply operations and the filter / sort / paginate query), with
    the properties of the written specification stated over it.

    Conventions of the embedding.
    - A Python [str] is a Rocq [string], read as the bytes of its UTF-8
      encoding.  Substring search and lexicographic comparison on the bytes
      agree with Python's on code points.  [lower] and [strip] are exact on
      ASCII text; bytes above 127 are taken as caseless and non-blank.
    - A Python [int] is a [Z]; the quantity of a record is a number, a
      rational [Q]; a naive [datetime] is a [Z], the microseconds since the
      start of the proleptic calendar.  The forms mean to admit numbers
      only, but their check lets not-a-number through ([_validate] below,
      modelled over all floats, [pyfloat]); the collection and the sort are
      modelled for the quantities that are numbers.
    - [Supply] instances are mutable objects that the collection, the query
      result and the forms share.  The model keeps an object store
      ([heap]) and lets lists hold references ([ref]) into it.
    - [datetime.now()] is an explicit argument [now] of the operations that
      read the clock. *)

From Stdlib Require Import ZArith QArith Ascii String List Sorted Permutation Lia.
From stdpp Require Import base decidable gmap strings.

Import ListNotations.
Local Open Scope string_scope.
Local Open Scope list_scope.
Local Open Scope Z_scope.

(** ** Python strings *)

Module Str.

Definition code (c : ascii) : N := N_of_ascii c.

(** [str.lower] on one character: [A]-[Z] go to [a]-[z]. *)
Definition lower_char (c : ascii) : ascii :=
  if ((65 <=? code c) && (code c <=? 90))%N
  then ascii_of_N (code c + 32)
  else c.

(** [s.lower()] *)
Fixpoint lower (s : string) : string :=
  match s with
  | EmptyString => EmptyString
  | String c s' => String (lower_char c) (lower s')
  end.

(** [c.isspace()] for the ASCII range: tab, line feed, vertical tab, form
    feed, carriage return, the four separators 28-31 and the space. *)
Definition is_space (c : ascii) : bool :=
  (((9 <=? code c) && (code c <=? 13))
   || ((28 <=? code c) && (code c <=? 32)))%N.

Fixpoint lstrip (s : string) : string :=
  match s with
  | EmptyString => EmptyString
  | String c s' => if is_space c then lstrip s' else s
  end.

Fixpoint rstrip (s : string) : string :=
  match s with
  | EmptyString => EmptyString
  | String c s' =>
      match rstrip s' with
      | EmptyString => if is_space c then EmptyString else String c EmptyString
      | r => String c r
      end
  end.

(** [s.strip()] *)
Definition strip (s : string) : string := rstrip (lstrip s).

(** [hay.startswith(needle)] *)
Fixpoint startswith (needle hay : string) : bool :=
  match needle, hay with
  | EmptyString, _ => true
  | String _ _, EmptyString => false
  | String a n', String b h' => Ascii.eqb a b && startswith n' h'
  end.

(** [needle in hay] *)
Fixpoint contains (needle hay : string) : bool :=
  startswith needle hay
  || match hay with
     | EmptyString => false
     | String _ h' => contains needle h'
     end.

(** [sep.join(parts)] *)
Fixpoint join (sep : string) (parts : list string) : string :=
  match parts with
  | [] => EmptyString
  | [p] => p
  | p :: ps => (p ++ sep ++ join sep ps)%string
  end.

(** Truth value of a string in a condition: non-empty. *)
Definition truthy (s : string) : bool :=
  match s with EmptyString => false | String _ _ => true end.

(** [a < b]: lexicographic on the characters. *)
Fixpoint lt (a b : string) : bool :=
  match a, b with
  | _, EmptyString => false
  | EmptyString, String _ _ => true
  | String x a', String y b' =>
      if (code x <? code y)%N then true
      else if (code y <? code x)%N then false
      else lt a' b'
  end.

(** The specification-level reading of [needle in hay]. *)
Definition substring_of (needle hay : string) : Prop :=
  exists pre post, hay = (pre ++ needle ++ post)%string.

End Str.

(** ** Data model *)

(** A reference to a [Supply] object. *)
Definition ref := nat.

Module Supply.
Record t := mk {
  id : Z;
  name : string;
  category : string;
  quantity : Q;
  unit : string;
  color : string;
  brand : string;
  tags : list string;
  notes : string;
  updated : Z
}.

Definition set_id (v : Z) (s : t) : t :=
  mk v (name s) (category s) (quantity s) (unit s) (color s) (brand s)
     (tags s) (notes s) (updated s).

Definition set_updated (v : Z) (s : t) : t :=
  mk (id s) (name s) (category s) (quantity s) (unit s) (color s) (brand s)
     (tags s) (notes s) v.

(** Agreement on every field but [id] and [updated]. *)
Definition same_content (a b : t) : Prop :=
  name a = name b /\ category a = category b /\ quantity a = quantity b
  /\ unit a = unit b /\ color a = color b /\ brand a = brand b
  /\ tags a = tags b /\ notes a = notes b.
End Supply.

Definition CATEGORIES : list string := ["Yarn"; "Fabric"; "Tool"; "Notion"; "Other"].
Definition UNITS : list string := ["skein"; "g"; "m"; "yd"; "pair"; "pcs"].

(** The attributes of an [AppState] instance. *)
Record AppState := mkAppState {
  current_user : option string;
  supplies : list ref;
  next_id : Z;
  search_query : string;
  sort_by : string;
  sort_dir : string;
  filter_categories : gset string;
  filter_units : gset string;
  filter_color : string;
  filter_tags : string;
  page_size : Z;
  page_index : Z
}.

(** The object store together with the application state. *)
Record World := mkWorld {
  heap : ref -> Supply.t;
  self : AppState
}.

Definition set_supplies (l : list ref) (a : AppState) : AppState :=
  mkAppState (current_user a) l (next_id a) (search_query a) (sort_by a)
    (sort_dir a) (filter_categories a) (filter_units a) (filter_color a)
    (filter_tags a) (page_size a) (page_index a).

Definition set_next_id (n : Z) (a : AppState) : AppState :=
  mkAppState (current_user a) (supplies a) n (search_query a) (sort_by a)
    (sort_dir a) (filter_categories a) (filter_units a) (filter_color a)
    (filter_tags a) (page_size a) (page_index a).

Definition set_sort_by (v : string) (a : AppState) : AppState :=
  mkAppState (current_user a) (supplies a) (next_id a) (search_query a) v
    (sort_dir a) (filter_categories a) (filter_units a) (filter_color a)
    (filter_tags a) (page_size a) (page_index a).

Definition set_sort_dir (v : string) (a : AppState) : AppState :=
  mkAppState (current_user a) (supplies a) (next_id a) (search_query a)
    (sort_by a) v (filter_categories a) (filter_units a) (filter_color a)
    (filter_tags a) (page_size a) (page_index a).

Definition set_page (size index : Z) (a : AppState) : AppState :=
  mkAppState (current_user a) (supplies a) (next_id a) (search_query a)
    (sort_by a) (sort_dir a) (filter_categories a) (filter_units a)
    (filter_color a) (filter_tags a) size index.

(** The records of the collection, in collection order. *)
Definition records (w : World) : list Supply.t :=
  map (heap w) (supplies (self w)).

(** ** Calls: state passing with an outcome *)

Inductive outcome (A : Type) : Type :=
| Return (a : A)
| Raise (exc : string).
Arguments Return {A} a.
Arguments Raise {A} exc.

Definition Py (A : Type) : Type := World -> outcome A * World.

#[global] Instance Py_ret : MRet Py := fun A a w => (Return a, w).

#[global] Instance Py_bind : MBind Py := fun A B k m w =>
  match m w with
  | (Return a, w') => k a w'
  | (Raise e, w') => (Raise e, w')
  end.

(** Reading an attribute of [self]. *)
Definition attr {A} (f : AppState -> A) : Py A := fun w => (Return (f (self w)), w).

(** Assigning to an attribute of [self]. *)
Definition assign (f : AppState -> AppState) : Py () :=
  fun w => (Return tt, mkWorld (heap w) (f (self w))).

(** Reading an object. *)
Definition deref (r : ref) : Py Supply.t := fun w => (Return (heap w r), w).

(** Assigning to an attribute of the object behind [r]. *)
Definition setattr (r : ref) (f : Supply.t -> Supply.t) : Py () :=
  fun w =>
    (Return tt,
     mkWorld (fun r' => if Nat.eqb r' r then f (heap w r') else heap w r') (self w)).

(** ** Supply operations *)

(** [AppState.add_supply] *)
Definition add_supply (now : Z) (s : ref) : Py ref :=
  n ← attr next_id;
  setattr s (Supply.set_id n);;
  assign (set_next_id (n + 1));;
  setattr s (Supply.set_updated now);;
  l ← attr supplies;
  assign (set_supplies (l ++ [s]));;
  mret s.

(** [AppState.update_supply] *)
Definition update_supply (now : Z) (s : ref) : Py () :=
  setattr s (Supply.set_updated now).

(** [AppState.delete_supply] *)
Definition delete_supply (supply_id : Z) : Py () :=
  fun w =>
    assign (set_supplies
              (List.filter (fun x => negb (Supply.id (heap w x) =? supply_id))
                           (supplies (self w)))) w.

(** The loop of [find_by_id] over the collection. *)
Fixpoint find_loop (h : ref -> Supply.t) (supply_id : Z) (l : list ref) : option ref :=
  match l with
  | [] => None
  | s :: l' => if Supply.id (h s) =? supply_id then Some s else find_loop h supply_id l'
  end.

(** [AppState.find_by_id] *)
Definition find_by_id (supply_id : Z) : Py (option ref) :=
  fun w => (Return (find_loop (heap w) supply_id (supplies (self w))), w).

(** ** Filtering *)

(** Truth value of a set in a condition: non-empty. *)
Definition set_truthy (X : gset string) : bool := bool_decide (X ≠ ∅).

(** [x in X] for a set of strings. *)
Definition set_mem (x : string) (X : gset string) : bool := bool_decide (x ∈ X).

(** [a or b] on strings. *)
Definition str_or (a b : string) : string := if Str.truthy a then a else b.

(** [AppState._matches_filters]; each [if ... then false] is one of the
    early [return False] exits, in source order. *)
Definition _matches_filters (a : AppState) (s : Supply.t) : bool :=
  let q := Str.strip (Str.lower (search_query a)) in
  if Str.truthy q
     && negb (Str.contains q
                (Str.lower (Str.join " " [Supply.name s; Supply.category s;
                                          Str.join " " (Supply.tags s)])))
  then false
  else if set_truthy (filter_categories a)
          && negb (set_mem (Supply.category s) (filter_categories a))
  then false
  else if set_truthy (filter_units a)
          && negb (set_mem (Supply.unit s) (filter_units a))
  then false
  else if Str.truthy (filter_color a)
          && negb (Str.contains (Str.lower (filter_color a))
                                (Str.lower (str_or (Supply.color s) "")))
  then false
  else if Str.truthy (filter_tags a)
          && negb (Str.contains (Str.lower (filter_tags a))
                                (Str.lower (Str.join " " (Supply.tags s))))
  then false
  else true.

(** ** Sorting *)

(** The values [_sort_key] can return: a string, a float or a datetime. *)
Inductive SortKey : Type :=
| KStr (s : string)
| KFloat (q : Q)
| KDatetime (t : Z).

Definition Qltb (a b : Q) : bool := negb (Qle_bool b a).

(** [k1 < k2].  One sort compares keys of one type only (a fixed [sort_by]
    selects the type), so the mixed cases are never evaluated. *)
Definition key_lt (k1 k2 : SortKey) : bool :=
  match k1, k2 with
  | KStr a, KStr b => Str.lt a b
  | KFloat a, KFloat b => Qltb a b
  | KDatetime a, KDatetime b => a <? b
  | _, _ => false
  end.

(** [k1 == k2] *)
Definition key_eq (k1 k2 : SortKey) : bool :=
  match k1, k2 with
  | KStr a, KStr b => String.eqb a b
  | KFloat a, KFloat b => Qeq_bool a b
  | KDatetime a, KDatetime b => a =? b
  | _, _ => false
  end.

(** [AppState._sort_key] *)
Definition _sort_key (a : AppState) (s : Supply.t) : SortKey :=
  if String.eqb (sort_by a) "name" then KStr (Str.lower (Supply.name s))
  else if String.eqb (sort_by a) "quantity" then KFloat (Supply.quantity s)
  else if String.eqb (sort_by a) "updated" then KDatetime (Supply.updated s)
  else KStr (Str.lower (Supply.name s)).

Section ListSort.
Context {A : Type} (key : A -> SortKey).

(** Insertion of [x] in front of a sorted list whose elements all came
    after [x] in the input: [x] moves right past the elements strictly
    smaller than it, and no further. *)
Fixpoint insert_sorted (x : A) (l : list A) : list A :=
  match l with
  | [] => [x]
  | y :: l' =>
      if key_lt (key y) (key x) then y :: insert_sorted x l' else x :: l
  end.

(** A stable sort into ascending key order that uses only [<] on keys,
    which is what [list.sort] guarantees. *)
Definition stable_sort (l : list A) : list A :=
  foldr insert_sorted [] l.

(** [l.sort(key=key, reverse=reverse)].  With [reverse] the list is
    reversed before and after the ascending sort, so that elements with
    equal keys keep their original order (the stability that [list.sort]
    documents for [reverse=True]). *)
Definition list_sort (reverse : bool) (l : list A) : list A :=
  if reverse then rev (stable_sort (rev l)) else stable_sort l.

(** The elements whose key compares equal to [k]. *)
Definition of_key (k : SortKey) (x : A) : bool := key_eq (key x) k.

(** [x] may stand before [y] in ascending, resp. descending, order. *)
Definition asc (x y : A) : Prop := key_lt (key y) (key x) = false.
Definition desc (x y : A) : Prop := key_lt (key x) (key y) = false.
End ListSort.

(** Two keys are of one type. *)
Definition same_type (k1 k2 : SortKey) : Prop :=
  match k1, k2 with
  | KStr _, KStr _ | KFloat _, KFloat _ | KDatetime _, KDatetime _ => True
  | _, _ => False
  end.

(** [x] occurs in [l] at a position before an occurrence of [y]. *)
Definition precedes {A} (x y : A) (l : list A) : Prop :=
  exists l1 l2 l3, l = l1 ++ x :: l2 ++ y :: l3.

(** ** Pagination *)

(** Adjustment of one bound of a slice of a list of length [len]: a
    negative bound counts from the end, and both are clipped to the list. *)
Definition slice_bound (len i : Z) : Z :=
  if i <? 0 then Z.max 0 (i + len) else Z.min i len.

(** [l[start:stop]] *)
Definition slice {A} (l : list A) (start stop : Z) : list A :=
  let len := Z.of_nat (length l) in
  let lo := slice_bound len start in
  let hi := slice_bound len stop in
  firstn (Z.to_nat (hi - lo)) (skipn (Z.to_nat lo) l).

(** ** The query *)

(** [self._matches_filters(s)] on the object behind the reference [s]. *)
Definition passes (w : World) (s : ref) : bool := _matches_filters (self w) (heap w s).

(** [self._sort_key(s)] on the object behind the reference [s]. *)
Definition key_of (w : World) (s : ref) : SortKey := _sort_key (self w) (heap w s).

(** [rows] after the comprehension of [query_supplies]. *)
Definition filtered_rows (w : World) : list ref :=
  List.filter (passes w) (supplies (self w)).

(** [rows] after [rows.sort(...)]. *)
Definition sorted_rows (w : World) : list ref :=
  list_sort (key_of w) (String.eqb (sort_dir (self w)) "desc") (filtered_rows w).

(** [AppState.query_supplies].  [rows] is a list local to the call; the
    collection and the objects are only read. *)
Definition query_supplies : Py (list ref * Z) :=
  fun w =>
    let rows := sorted_rows w in
    let total := Z.of_nat (length rows) in
    let start := page_index (self w) * page_size (self w) in
    let end_ := start + page_size (self w) in
    (Return (slice rows start end_, total), w).

(** ** The seeded state *)

(** January 2026, day [d], at midnight. *)
Definition jan_2026 (d : Z) : Z := (739616 + d) * 86400000000.

Definition seed : list Supply.t := [
  Supply.mk 1 "DK Yarn Blue" "Yarn" 3 "skein" "Blue" "Cascade"
    ["dk"; "wool"; "blue"] "For winter hat project." (jan_2026 19);
  Supply.mk 2 "Cotton Fabric" "Fabric" (5 # 2) "yd" "White" "Kona"
    ["cotton"; "white"; "quilting"] "For quilt borders." (jan_2026 19);
  Supply.mk 3 "4mm Needles" "Tool" 1 "pair" "" "" [] "" (jan_2026 15);
  Supply.mk 4 "Worsted Yarn Red" "Yarn" 2 "skein" "Red" "Lion Brand"
    ["worsted"; "acrylic"; "red"] "Scarf project." (jan_2026 20);
  Supply.mk 5 "Cotton Batting" "Fabric" 1 "yd" "Natural" "Warm & Natural"
    ["batting"; "quilt"] "Low loft." (jan_2026 22);
  Supply.mk 6 "Zipper 9-inch" "Notion" 4 "pcs" "Black" "YKK"
    ["zipper"; "bags"; "notion"] "For pouches." (jan_2026 18);
  Supply.mk 7 "All-Purpose Thread" "Notion" 200 "g" "Ivory" "Gutermann"
    ["poly"; "thread"] "500m spool; approx weight for tracking." (jan_2026 23);
  Supply.mk 8 "Elastic 1-inch" "Notion" 5 "m" "White" "Dritz"
    ["elastic"; "waistband"] "Non-roll." (jan_2026 21);
  Supply.mk 9 "Embroidery Floss Set" "Notion" 24 "pcs" "Assorted" "DMC"
    ["floss"; "embroidery"; "assorted"] "24-skein assorted pack." (jan_2026 17);
  Supply.mk 10 "Rotary Cutter Blades 45mm" "Tool" 5 "pcs" "" "Olfa"
    ["rotary"; "blades"; "cutting"] "Replacement blades." (jan_2026 24);
  Supply.mk 11 "Pins – Glass Head" "Notion" 100 "pcs" "Assorted" "Clover"
    ["pins"; "notion"] "Heat-resistant heads." (jan_2026 16);
  Supply.mk 12 "Linen Fabric Natural" "Fabric" (7 # 4) "yd" "Natural"
    "Robert Kaufman" ["linen"; "garment"] "Pre-washed." (jan_2026 25);
  Supply.mk 13 "Blocking Mats" "Tool" 9 "pcs" "Gray" "KnitIQ"
    ["blocking"; "knitting"] "Interlocking tiles for blocking." (jan_2026 26)
].

(** What the constructor [Supply(id=0, ...)] yields before the form fills
    it in; also the content of addresses that hold no object yet. *)
Definition blank : Supply.t := Supply.mk 0 "" "" 0 "" "" "" [] "" 0.

(** [AppState.__init__]: the thirteen seed objects live at addresses
    0 to 12. *)
Definition init : World :=
  mkWorld (fun r => nth r seed blank)
          (mkAppState None (seq 0 13) 4 "" "name" "asc" ∅ ∅ "" "" 10 0).

(** [DetailScreen._save], the caller of [update_supply]: what the edit form
    holds once [_validate] has accepted it and the fields are parsed. *)
Record Form := mkForm {
  f_name : string;
  f_category : string;
  f_quantity : Q;
  f_unit : string;
  f_color : string;
  f_brand : string;
  f_tags : list string;
  f_notes : string
}.

(** The eight attribute assignments of [_save]. *)
Definition apply_form (f : Form) (s : Supply.t) : Supply.t :=
  Supply.mk (Supply.id s) (f_name f) (f_category f) (f_quantity f) (f_unit f)
            (f_color f) (f_brand f) (f_tags f) (f_notes f) (Supply.updated s).

(** A call of [show_banner kind message]. *)
Inductive Banner : Type := show_banner (kind message : string).

(** [DetailScreen._save] from the lookup on; the result is the banner it
    shows, if any. *)
Definition DetailScreen_save (now : Z) (current_id : option Z) (f : Form)
  : Py (option Banner) :=
  match current_id with
  | None => mret None
  | Some i =>
      found ← find_by_id i;
      match found with
      | None => mret (Some (show_banner "error" "Item not found."))
      | Some s =>
          setattr s (apply_form f);;
          update_supply now s;;
          mret (Some (show_banner "success" "Saved successfully."))
      end
  end.

(** ** Views of a state used in the statements *)

(** The state with other view settings. *)
Definition with_view (f : AppState -> AppState) (w : World) : World :=
  mkWorld (heap w) (f (self w)).

(** The value a call returned, if it returned. *)
Definition returned {A} (r : outcome A * World) : option A :=
  match r.1 with Return a => Some a | Raise _ => None end.

(** The fresh object a form builds: [v] stored at the address [r]. *)
Definition alloc (r : ref) (v : Supply.t) (w : World) : World :=
  mkWorld (fun r' => if Nat.eqb r' r then v else heap w r') (self w).

(** The ids of the records of the collection, in collection order. *)
Definition ids (w : World) : list Z := map Supply.id (records w).

(** Every id in the collection is below the counter [next_id]. *)
Definition counter_ahead (w : World) : Prop :=
  Forall (fun i => i < next_id (self w)) (ids w).

(** ** Sample states *)

(** A draft as the add form builds it. *)
Definition silk_draft : Supply.t :=
  Supply.mk 0 "Silk Thread" "Notion" 1 "pcs" "" "" [] "" 0.

(** The seeded state with a new object at address 13, outside the
    collection, whose id no record has. *)
Definition stray_world : World := alloc 13%nat (Supply.set_id 99 blank) init.

(** The seeded state showing its second page. *)
Definition second_page : World := with_view (set_page 10 1) init.

(** The seeded state sorted by quantity, largest first. *)
Definition by_quantity_desc : World :=
  with_view (fun a => set_sort_dir "desc" (set_sort_by "quantity" a)) init.

(** The seeded view with the colour filter "blue". *)
Definition blue_filter : AppState :=
  mkAppState None (seq 0 13) 4 "" "name" "asc" ∅ ∅ "blue" "" 10 0.

(** The seeded state with an empty [sort_by]. *)
Definition no_sort_by : World := with_view (set_sort_by "") init.

(** The seeded state with [sort_dir] spelled in capitals. *)
Definition upper_desc : World := with_view (set_sort_dir "DESC") init.

(** ** The screens

    The handlers of the screens are modelled by what they do to the state
    and by the banner they show; laying out widgets, raising a screen and
    redrawing are not effects on the state.  What a redraw computes is
    modelled on its own ([refresh_table], [_rebuild_page_buttons]); it only
    reads the state, and it can fail only by dividing by a page size of 0,
    which the statements about the handlers rule out. *)

Definition set_page_index (i : Z) (a : AppState) : AppState :=
  mkAppState (current_user a) (supplies a) (next_id a) (search_query a)
    (sort_by a) (sort_dir a) (filter_categories a) (filter_units a)
    (filter_color a) (filter_tags a) (page_size a) i.

Definition set_search_query (q : string) (a : AppState) : AppState :=
  mkAppState (current_user a) (supplies a) (next_id a) q (sort_by a)
    (sort_dir a) (filter_categories a) (filter_units a) (filter_color a)
    (filter_tags a) (page_size a) (page_index a).

Definition set_current_user (u : option string) (a : AppState) : AppState :=
  mkAppState u (supplies a) (next_id a) (search_query a) (sort_by a)
    (sort_dir a) (filter_categories a) (filter_units a) (filter_color a)
    (filter_tags a) (page_size a) (page_index a).

Definition set_filter_categories (X : gset string) (a : AppState) : AppState :=
  mkAppState (current_user a) (supplies a) (next_id a) (search_query a)
    (sort_by a) (sort_dir a) X (filter_units a) (filter_color a)
    (filter_tags a) (page_size a) (page_index a).

Definition set_filter_units (X : gset string) (a : AppState) : AppState :=
  mkAppState (current_user a) (supplies a) (next_id a) (search_query a)
    (sort_by a) (sort_dir a) (filter_categories a) X (filter_color a)
    (filter_tags a) (page_size a) (page_index a).

Definition set_filter_color (v : string) (a : AppState) : AppState :=
  mkAppState (current_user a) (supplies a) (next_id a) (search_query a)
    (sort_by a) (sort_dir a) (filter_categories a) (filter_units a) v
    (filter_tags a) (page_size a) (page_index a).

Definition set_filter_tags (v : string) (a : AppState) : AppState :=
  mkAppState (current_user a) (supplies a) (next_id a) (search_query a)
    (sort_by a) (sort_dir a) (filter_categories a) (filter_units a)
    (filter_color a) v (page_size a) (page_index a).

(** A computation that returns or raises without touching the state. *)
Definition lift {A} (o : outcome A) : Py A := fun w => (o, w).

(** [math.ceil(a / b)] on two ints.  Division by zero raises.  Otherwise
    the quotient is rounded to a float before the ceiling is taken, and the
    result is the ceiling of the exact quotient only while that rounding
    does not reach an integer the exact quotient is above: for
    [0 <= a < 2^53] and [1 <= b] it never does when the quotient is at least
    1, and a quotient below 1 gives 0 or 1, which [page_count] both turns
    into 1.  The length of a list is below [2^53]; statements about another
    [a] carry the bound. *)
Definition ceil_div (a b : Z) : outcome Z :=
  if b =? 0 then Raise "ZeroDivisionError" else Return (- ((- a) / b)).

(** [max(1, math.ceil(total / self.app.state.page_size))] *)
Definition page_count (total : Z) : Py Z :=
  size ← attr page_size;
  c ← lift (ceil_div total size);
  mret (Z.max 1 c).

(** [InventoryScreen._go_page] *)
Definition _go_page (delta : Z) : Py () :=
  '(_, total) ← query_supplies;
  pages ← page_count total;
  index ← attr page_index;
  let new_index := Z.max 0 (Z.min (index + delta) (pages - 1)) in
  if negb (new_index =? index) then assign (set_page_index new_index)
  else mret tt.

(** [InventoryScreen._set_page] *)
Definition _set_page (i : Z) : Py () :=
  index ← attr page_index;
  if negb (i =? index) then assign (set_page_index i) else mret tt.

(** [range(start, stop)] *)
Definition range (start stop : Z) : list Z :=
  map (fun k => start + Z.of_nat k) (seq 0 (Z.to_nat (stop - start))).

(** What [_rebuild_page_buttons] puts on the pagination bar: one button
    per page index of the window, labelled with the index plus one, with
    the flag telling whether it is disabled; and whether the "Prev" and
    "Next" buttons are enabled. *)
Record Pager := mkPager {
  page_buttons : list (Z * bool);
  prev_enabled : bool;
  next_enabled : bool
}.

(** [InventoryScreen._rebuild_page_buttons] *)
Definition _rebuild_page_buttons (total : Z) : Py Pager :=
  pages ← page_count total;
  cur ← attr page_index;
  let start := Z.max 0 (cur - 3) in
  let end_ := Z.min pages (start + 7) in
  let start := Z.max 0 (end_ - 7) in
  mret (mkPager (map (fun i => (i, i =? cur)) (range start end_))
                (0 <? cur) (cur <? pages - 1)).

(** What [refresh_table] draws: the rows, the two numbers of the
    "shown results (of total)" label and the pagination bar. *)
Record Table := mkTable {
  table_rows : list ref;
  shown : Z;
  of_total : Z;
  pager : Pager
}.

(** [InventoryScreen.refresh_table] *)
Definition refresh_table : Py Table :=
  '(rows, total) ← query_supplies;
  bar ← _rebuild_page_buttons total;
  mret (mkTable rows (Z.of_nat (length rows)) total bar).

(** [InventoryScreen._apply_search]; [ent_search] is the text of the
    search box. *)
Definition _apply_search (ent_search : string) : Py () :=
  assign (set_search_query (Str.strip ent_search));;
  assign (set_page_index 0).

(** [{k for k, v in vars.items() if v.get()}]: the names whose check box
    is ticked. *)
Definition ticked (vars : list (string * bool)) : gset string :=
  list_to_set (map fst (List.filter snd vars)).

(** [SortFilterDialog._apply]; the arguments are what the widgets of the
    dialog hold. *)
Definition SortFilterDialog_apply (sort_var dir_var : string)
    (vars_cat vars_unit : list (string * bool)) (ent_color ent_tags : string)
  : Py () :=
  assign (set_sort_by sort_var);;
  assign (set_sort_dir dir_var);;
  assign (set_filter_categories (ticked vars_cat));;
  assign (set_filter_units (ticked vars_unit));;
  assign (set_filter_color (Str.strip ent_color));;
  assign (set_filter_tags (Str.strip ent_tags));;
  assign (set_page_index 0).

(** [LoginScreen._login]; the arguments are the texts of the two entries. *)
Definition LoginScreen_login (ent_user ent_pass : string) : Py Banner :=
  let u := Str.strip ent_user in
  let p := Str.strip ent_pass in
  if negb (Str.truthy u) || negb (Str.truthy p)
  then mret (show_banner "warn" "Please enter both username and password.")
  else
    assign (set_current_user (Some u));;
    mret (show_banner "success" ("Welcome, " ++ u ++ "!")%string).

(** [App._do_logout] *)
Definition App_do_logout : Py Banner :=
  assign (set_current_user None);;
  mret (show_banner "info" "Logged out.").

(** [DetailScreen._delete] once the user has confirmed. *)
Definition DetailScreen_delete (current_id : option Z) : Py (option Banner) :=
  match current_id with
  | None => mret None
  | Some i =>
      delete_supply i;;
      mret (Some (show_banner "info" "Item deleted."))
  end.

(** ** Validation of the forms *)







(** Every character of a text is an ASCII character. *)
Definition ascii_text (s : string) : Prop :=
  Forall (fun c => (Str.code c < 128)%N) (list_ascii_of_string s).

(** ** Sessions *)

(** What a user does to the collection: saving the add form (a new object
    [s] built from the form, then [add_supply]), saving the edit form, and
    deleting from the edit form. *)
Inductive Action : Type :=
| Create (now : Z) (s : ref) (draft : Supply.t)
| Edit (now : Z) (i : Z) (f : Form)
| Remove (i : Z).

Definition perform (act : Action) (w : World) : World :=
  match act with
  | Create now s draft => (add_supply now s (alloc s draft w)).2
  | Edit now i f => (DetailScreen_save now (Some i) f w).2
  | Remove i => (DetailScreen_delete (Some i) w).2
  end.

Definition run (acts : list Action) (w : World) : World :=
  fold_left (fun w act => perform act w) acts w.

(** Every creation of the session uses an object that is not in the
    collection at that moment, as a newly built object is. *)
Fixpoint new_objects (w : World) (acts : list Action) : Prop :=
  match acts with
  | [] => True
  | act :: rest =>
      match act with
      | Create _ s _ => ~ In s (supplies (self w))
      | _ => True
      end
      /\ new_objects (perform act w) rest
  end.

(** ** Further views used in the statements *)

(** The characters of a string are all blank. *)
Definition blank_text (s : string) : Prop :=
  Forall (fun c => Str.is_space c = true) (list_ascii_of_string s).

(** The page that [query_supplies] returns once [page_index] is [i]. *)
Definition page_at (w : World) (i : Z) : list ref :=
  match returned (query_supplies (with_view (set_page_index i) w)) with
  | Some (page, _) => page
  | None => []
  end.

(** The number of rows that pass the filter step. *)
Definition match_count (w : World) : Z := Z.of_nat (length (filtered_rows w)).

(** The number of pages the pagination bar counts: at least one. *)
Definition pages (w : World) : Z :=
  Z.max 1 (- (- match_count w / page_size (self w))).

(** The seeded state with the counter past every seeded id. *)
Definition counter_fixed : World := with_view (set_next_id 14) init.

(** The second page of the seeded state once two records are deleted:
    eleven records are left, one of them on this page. *)
Definition eleven_left : World := run [Remove 1; Remove 2] second_page.

(** A session: a creation, a deletion, an edit and another creation. *)
Definition sample_session : list Action :=
  [Create 100 13%nat silk_draft; Remove 2;
   Edit 200 14 (mkForm "Silk Floss" "Notion" 2 "pcs" "Red" "" ["silk"] "");
   Create 300 14%nat silk_draft].

(** * Properties *)

(** ** Strings *)

Module StrFacts.
Import Str.

Lemma truthy_true (s : string) : truthy s = true <-> s <> "".
Proof. destruct s; simpl; split; intros; congruence. Qed.

Lemma truthy_false (s : string) : truthy s = false <-> s = "".
Proof. destruct s; simpl; split; intros; congruence. Qed.

Lemma lower_nil (s : string) : lower s = "" <-> s = "".
Proof. destruct s; simpl; split; intros; congruence. Qed.

Lemma startswith_iff (n h : string) :
  startswith n h = true <-> exists post, h = (n ++ post)%string.
Proof.
  revert h. induction n as [|a n IH]; intros h; simpl.
  - split; eauto.
  - destruct h as [|b h].
    + split; [discriminate | intros [post E]; discriminate].
    + rewrite andb_true_iff, Ascii.eqb_eq, IH. split.
      * intros [-> [post ->]]. eauto.
      * intros [post E]. injection E as -> ->. eauto.
Qed.

Lemma contains_iff (n h : string) :
  contains n h = true <-> substring_of n h.
Proof.
  unfold substring_of. split.
  - induction h as [|c h IH]; simpl; rewrite orb_true_iff.
    + intros [H|H]; [|discriminate].
      apply startswith_iff in H as [post E]. exists "", post. exact E.
    + intros [H|H].
      * apply startswith_iff in H as [post E]. exists "", post. exact E.
      * destruct (IH H) as (pre & post & E).
        exists (String c pre), post. simpl. now rewrite E.
  - intros (pre & post & E). revert h E.
    induction pre as [|c pre IH]; intros h E; simpl in E.
    + assert (S : startswith n h = true) by (apply startswith_iff; eauto).
      destruct h; simpl in *; now rewrite S.
    + subst h. simpl. rewrite (IH _ eq_refl). apply orb_true_r.
Qed.

Lemma contains_in_nil (n : string) : n <> "" -> contains n "" = false.
Proof. destruct n; simpl; [congruence | reflexivity]. Qed.

Lemma lt_irrefl (a : string) : lt a a = false.
Proof.
  induction a as [|x a IH]; simpl; [reflexivity|].
  now rewrite N.ltb_irrefl.
Qed.

Lemma lt_asym (a b : string) : lt a b = true -> lt b a = false.
Proof.
  revert b. induction a as [|x a IH]; intros [|y b]; simpl; try congruence.
  destruct (N.ltb_spec (code x) (code y)), (N.ltb_spec (code y) (code x));
    try lia; auto.
Qed.

(** [<] is negatively transitive: [<=] is transitive. *)
Lemma lt_cotrans (a b c : string) :
  lt a c = true -> lt a b = true \/ lt b c = true.
Proof.
  revert b c. induction a as [|x a IH]; intros [|y b] [|z c]; simpl;
    try congruence; auto.
  destruct (N.ltb_spec (code x) (code z)), (N.ltb_spec (code z) (code x)),
           (N.ltb_spec (code x) (code y)), (N.ltb_spec (code y) (code x)),
           (N.ltb_spec (code y) (code z)), (N.ltb_spec (code z) (code y));
    try lia; auto; try congruence.
Qed.
End StrFacts.

(** ** Keys *)

Lemma Qltb_lt (a b : Q) : Qltb a b = true <-> (a < b)%Q.
Proof.
  unfold Qltb. rewrite negb_true_iff, <- not_true_iff_false, Qle_bool_iff.
  split; [apply Qnot_le_lt | apply Qlt_not_le].
Qed.

Lemma key_eq_refl (k : SortKey) : key_eq k k = true.
Proof.
  destruct k; simpl.
  - apply String.eqb_refl.
  - apply Qeq_bool_iff. reflexivity.
  - apply Z.eqb_refl.
Qed.

Lemma key_eq_sym (k1 k2 : SortKey) : key_eq k1 k2 = key_eq k2 k1.
Proof.
  destruct k1, k2; simpl; try reflexivity.
  - apply String.eqb_sym.
  - apply eq_true_iff_eq. rewrite !Qeq_bool_iff. split; intros H; now symmetry.
  - apply Z.eqb_sym.
Qed.

(** A key strictly below another is not equal to what the other equals. *)
Lemma key_lt_not_eq (k1 k2 k : SortKey) :
  key_lt k1 k2 = true -> key_eq k2 k = true -> key_eq k1 k = false.
Proof.
  destruct k1, k2, k; simpl; try congruence.
  - intros L E. apply String.eqb_eq in E. subst.
    apply not_true_iff_false. intros E. apply String.eqb_eq in E. subst.
    now rewrite StrFacts.lt_irrefl in L.
  - intros L E. apply Qltb_lt in L. apply Qeq_bool_iff in E.
    apply not_true_iff_false. intros E'. apply Qeq_bool_iff in E'.
    rewrite E', <- E in L. now apply Qlt_irrefl in L.
  - intros L E. lia.
Qed.

Lemma key_lt_asym (k1 k2 : SortKey) : key_lt k1 k2 = true -> key_lt k2 k1 = false.
Proof.
  destruct k1, k2; simpl; try congruence.
  - apply StrFacts.lt_asym.
  - intros L. apply Qltb_lt in L. apply not_true_iff_false. intros L'.
    apply Qltb_lt in L'. exact (Qlt_irrefl _ (Qlt_trans _ _ _ L L')).
  - lia.
Qed.

(** On keys of one type, "not above" is transitive. *)
Lemma key_le_trans (k1 k2 k3 : SortKey) :
  same_type k1 k2 -> same_type k2 k3 ->
  key_lt k2 k1 = false -> key_lt k3 k2 = false -> key_lt k3 k1 = false.
Proof.
  destruct k1, k2, k3; simpl; try tauto; intros _ _ H1 H2.
  - apply not_true_iff_false. intros L.
    destruct (StrFacts.lt_cotrans _ s0 _ L); congruence.
  - apply not_true_iff_false. intros L. apply Qltb_lt in L.
    apply not_true_iff_false in H1, H2. rewrite Qltb_lt in H1, H2.
    apply Qnot_lt_le in H1, H2.
    exact (Qlt_irrefl _ (Qlt_le_trans _ _ _ L (Qle_trans _ _ _ H1 H2))).
  - lia.
Qed.

(** ** The sort *)

Section ListSortFacts.
Context {A : Type} (key : A -> SortKey).

Lemma insert_sorted_perm (x : A) (l : list A) :
  Permutation (x :: l) (insert_sorted key x l).
Proof.
  induction l as [|y l IH]; simpl; [reflexivity|].
  destruct (key_lt (key y) (key x)); [|reflexivity].
  rewrite perm_swap. now constructor.
Qed.

Lemma stable_sort_perm (l : list A) : Permutation l (stable_sort key l).
Proof.
  induction l as [|x l IH]; simpl; [constructor|].
  rewrite <- insert_sorted_perm. now constructor.
Qed.

Lemma list_sort_perm (reverse : bool) (l : list A) :
  Permutation l (list_sort key reverse l).
Proof.
  unfold list_sort. destruct reverse; [|apply stable_sort_perm].
  rewrite <- Permutation_rev, <- stable_sort_perm. apply Permutation_rev.
Qed.

Lemma list_sort_length (reverse : bool) (l : list A) :
  length (list_sort key reverse l) = length l.
Proof. symmetry. apply Permutation_length, list_sort_perm. Qed.

(** *** Stability *)

Lemma insert_sorted_of_key (k : SortKey) (x : A) (l : list A) :
  List.filter (of_key key k) (insert_sorted key x l) = List.filter (of_key key k) (x :: l).
Proof.
  induction l as [|y l IH]; [reflexivity|].
  cbn [insert_sorted]. destruct (key_lt (key y) (key x)) eqn:L; [|reflexivity].
  cbn [List.filter] in *. rewrite IH.
  destruct (of_key key k x) eqn:Ex; [|reflexivity].
  unfold of_key in *. now rewrite (key_lt_not_eq _ _ _ L Ex).
Qed.

Lemma stable_sort_of_key (k : SortKey) (l : list A) :
  List.filter (of_key key k) (stable_sort key l) = List.filter (of_key key k) l.
Proof.
  induction l as [|x l IH]; [reflexivity|].
  cbn [stable_sort foldr]. rewrite insert_sorted_of_key.
  cbn [List.filter]. fold (stable_sort key l). now rewrite IH.
Qed.

Lemma list_sort_of_key (k : SortKey) (reverse : bool) (l : list A) :
  List.filter (of_key key k) (list_sort key reverse l) = List.filter (of_key key k) l.
Proof.
  unfold list_sort. destruct reverse; [|apply stable_sort_of_key].
  now rewrite List.filter_rev, stable_sort_of_key, List.filter_rev, rev_involutive.
Qed.

(** *** Order *)

Hypothesis one_type : forall x y, same_type (key x) (key y).

Lemma asc_trans (x y z : A) : asc key x y -> asc key y z -> asc key x z.
Proof. unfold asc. apply key_le_trans; apply one_type. Qed.

Lemma insert_sorted_asc (x : A) (l : list A) :
  StronglySorted (asc key) l -> StronglySorted (asc key) (insert_sorted key x l).
Proof.
  induction 1 as [|y l S IH F]; simpl.
  - repeat constructor.
  - destruct (key_lt (key y) (key x)) eqn:L.
    + constructor; [exact IH|].
      rewrite <- (insert_sorted_perm x l). constructor; [|exact F].
      now apply key_lt_asym.
    + constructor; [now constructor|].
      constructor; [exact L|].
      eapply List.Forall_impl; [|exact F]. intros z. now apply asc_trans.
Qed.

Lemma stable_sort_asc (l : list A) : StronglySorted (asc key) (stable_sort key l).
Proof.
  induction l as [|x l IH]; simpl; [constructor|].
  now apply insert_sorted_asc.
Qed.

Lemma StronglySorted_snoc (R : A -> A -> Prop) (l : list A) (x : A) :
  StronglySorted R l -> Forall (fun y => R y x) l -> StronglySorted R (l ++ [x]).
Proof.
  induction 1 as [|y l S IH F]; intros H; simpl.
  - repeat constructor.
  - inversion H; subst. constructor; [now apply IH|].
    apply Forall_app. split; [exact F|]. now constructor.
Qed.

Lemma rev_asc_desc (l : list A) :
  StronglySorted (asc key) l -> StronglySorted (desc key) (rev l).
Proof.
  induction 1 as [|y l S IH F]; simpl; [constructor|].
  apply StronglySorted_snoc; [exact IH|].
  apply Forall_rev. exact F.
Qed.

Lemma list_sort_ordered (reverse : bool) (l : list A) :
  StronglySorted (if reverse then desc key else asc key) (list_sort key reverse l).
Proof.
  unfold list_sort. destruct reverse.
  - apply rev_asc_desc, stable_sort_asc.
  - apply stable_sort_asc.
Qed.
End ListSortFacts.

(** ** Relative order of two elements of a list *)

Lemma filter_eq_cons {A} (P : A -> bool) (l : list A) (x : A) (r : list A) :
  List.filter P l = x :: r ->
  exists l1 l2, l = l1 ++ x :: l2 /\ List.filter P l1 = [] /\ List.filter P l2 = r.
Proof.
  induction l as [|y l IH]; simpl; [discriminate|].
  destruct (P y) eqn:Py.
  - intros E. injection E as -> <-. exists [], l. auto.
  - intros E. destruct (IH E) as (l1 & l2 & -> & E1 & E2).
    exists (y :: l1), l2. simpl. rewrite Py. auto.
Qed.

Lemma filter_eq_app {A} (P : A -> bool) (a b l : list A) :
  List.filter P l = a ++ b ->
  exists la lb, l = la ++ lb /\ List.filter P la = a /\ List.filter P lb = b.
Proof.
  revert l. induction a as [|x a IH]; intros l E.
  - exists [], l. auto.
  - simpl in E. pose proof E as E0.
    apply filter_eq_cons in E as (l1 & l2 & -> & E1 & E2).
    destruct (IH _ E2) as (la & lb & -> & Ea & Eb).
    exists (l1 ++ x :: la), lb. split; [now rewrite <- app_assoc|].
    split; [|exact Eb].
    rewrite List.filter_app in E0 |- *. rewrite E1 in E0 |- *. simpl in *.
    destruct (P x); [now rewrite Ea|].
    exfalso. assert (In x (List.filter P (la ++ lb))) as I
      by (rewrite E0; now left).
    apply List.filter_In in I as [_ I].
    rewrite List.filter_app, Ea, Eb in E0.
    apply (f_equal (@length A)) in E0. simpl in E0. lia.
Qed.

Lemma precedes_filter_intro {A} (P : A -> bool) (x y : A) (l : list A) :
  P x = true -> P y = true -> precedes x y l -> precedes x y (List.filter P l).
Proof.
  intros Px Py (l1 & l2 & l3 & ->).
  exists (List.filter P l1), (List.filter P l2), (List.filter P l3).
  rewrite List.filter_app. simpl. rewrite Px, List.filter_app. simpl.
  now rewrite Py.
Qed.

Lemma precedes_filter_elim {A} (P : A -> bool) (x y : A) (l : list A) :
  precedes x y (List.filter P l) -> precedes x y l.
Proof.
  intros (l1 & l2 & l3 & E).
  apply filter_eq_app in E as (la & lb & -> & _ & E).
  apply filter_eq_cons in E as (p1 & p2 & -> & _ & E).
  apply filter_eq_app in E as (q1 & q2 & -> & _ & E).
  apply filter_eq_cons in E as (r1 & r2 & -> & _ & _).
  exists (la ++ p1), (q1 ++ r1), r2. now rewrite <- !app_assoc.
Qed.

(** ** Slices *)

Lemma slice_window {A} (l : list A) (start size : Z) :
  0 <= start -> 0 <= size ->
  slice l start (start + size) = firstn (Z.to_nat size) (skipn (Z.to_nat start) l).
Proof.
  intros Hs Hz. unfold slice, slice_bound.
  destruct (Z.ltb_spec start 0), (Z.ltb_spec (start + size) 0); try lia.
  destruct (Z_le_gt_dec start (Z.of_nat (length l))) as [Le|Gt].
  - rewrite (Z.min_l start) by lia.
    destruct (Z_le_gt_dec (start + size) (Z.of_nat (length l))).
    + rewrite Z.min_l by lia. f_equal. lia.
    + rewrite Z.min_r by lia.
      rewrite !firstn_all2; try reflexivity; rewrite length_skipn; lia.
  - rewrite !Z.min_r by lia. rewrite !skipn_all2 by lia. now rewrite !firstn_nil.
Qed.

Lemma window_length {A} (l : list A) (start size : Z) :
  0 <= start -> 0 <= size ->
  Z.of_nat (length (firstn (Z.to_nat size) (skipn (Z.to_nat start) l)))
  = Z.min size (Z.max 0 (Z.of_nat (length l) - start)).
Proof. intros Hs Hz. rewrite length_firstn, length_skipn. lia. Qed.

(** ** The query *)

Lemma sorted_rows_length (w : World) :
  length (sorted_rows w) = length (filtered_rows w).
Proof. apply list_sort_length. Qed.

Lemma sort_key_one_type (a : AppState) (s1 s2 : Supply.t) :
  same_type (_sort_key a s1) (_sort_key a s2).
Proof.
  unfold _sort_key.
  destruct (String.eqb (sort_by a) "name"); [exact I|].
  destruct (String.eqb (sort_by a) "quantity"); [exact I|].
  destruct (String.eqb (sort_by a) "updated"); exact I.
Qed.

Lemma sort_key_fallback (a : AppState) (s : Supply.t) :
  sort_by a <> "name" -> sort_by a <> "quantity" -> sort_by a <> "updated" ->
  _sort_key a s = _sort_key (set_sort_by "name" a) s.
Proof.
  intros H1 H2 H3. unfold _sort_key. simpl.
  apply String.eqb_neq in H1, H2, H3. now rewrite H1, H2, H3.
Qed.

Lemma list_sort_ext {A} (key key' : A -> SortKey) (reverse : bool) (l : list A) :
  (forall x, key x = key' x) -> list_sort key reverse l = list_sort key' reverse l.
Proof.
  intros E.
  assert (I : forall x m, insert_sorted key x m = insert_sorted key' x m).
  { intros x m. induction m as [|y m IH]; simpl; [reflexivity|].
    now rewrite !E, IH. }
  assert (S : forall m, stable_sort key m = stable_sort key' m).
  { induction m as [|y m IH]; simpl; [reflexivity|].
    fold (stable_sort key m) (stable_sort key' m). now rewrite IH, I. }
  unfold list_sort. now rewrite !S.
Qed.

(** C4.  The total that [query_supplies] returns is the number of records
    of the collection that pass the filter step, whatever the page size and
    the page index are. *)
Theorem C4_total_match_count (w : World) :
  let matching :=
    Z.of_nat (length (List.filter (fun s => _matches_filters (self w) (heap w s))
                                  (supplies (self w)))) in
  (exists page, returned (query_supplies w) = Some (page, matching))
  /\ forall size index : Z,
       exists page,
         returned (query_supplies (with_view (set_page size index) w))
         = Some (page, matching).
Proof.
  cbv zeta. split.
  - eexists. unfold returned, query_supplies. cbn [fst].
    now rewrite sorted_rows_length.
  - intros size index. eexists. unfold returned, query_supplies. cbn [fst].
    now rewrite sorted_rows_length.
Qed.

(** C5.  With a page index at least 0 and a page size at least 1, the page
    that [query_supplies] returns is the window of [page_size] rows starting
    at row [page_index * page_size] of the sorted filtered rows; its length
    is [min(page_size, max(0, total - page_index * page_size))]; and a start
    at or beyond the end gives the empty page, returned normally. *)
Theorem C5_page_window (w : World) :
  0 <= page_index (self w) -> 1 <= page_size (self w) ->
  let size := page_size (self w) in
  let start := page_index (self w) * size in
  let total := Z.of_nat (length (sorted_rows w)) in
  exists page,
    query_supplies w = (Return (page, total), w)
    /\ page = firstn (Z.to_nat size) (skipn (Z.to_nat start) (sorted_rows w))
    /\ Z.of_nat (length page) = Z.min size (Z.max 0 (total - start))
    /\ (total <= start -> page = []).
Proof.
  intros Hi Hs. cbv zeta. eexists. split; [reflexivity|].
  assert (0 <= page_index (self w) * page_size (self w)) by nia.
  rewrite slice_window by lia. split; [reflexivity|]. split.
  - apply window_length; lia.
  - intros Hout. rewrite skipn_all2 by lia. apply firstn_nil.
Qed.

(** Where every quantity is a number, as in this model of the collection,
    the sort of [query_supplies] is stable for every sort key and both
    directions: the rows whose key compares equal to any given value come
    out of the sort in the order they had in the filtered collection, hence
    two rows with equal keys keep their relative order. *)
Theorem sort_stable_for_numbers (w : World) :
  (forall k : SortKey,
     List.filter (fun s => key_eq (key_of w s) k) (sorted_rows w)
     = List.filter (fun s => key_eq (key_of w s) k) (filtered_rows w))
  /\ (forall x y : ref,
        key_eq (key_of w x) (key_of w y) = true ->
        precedes x y (filtered_rows w) -> precedes x y (sorted_rows w)).
Proof.
  assert (S : forall k,
    List.filter (of_key (key_of w) k) (sorted_rows w)
    = List.filter (of_key (key_of w) k) (filtered_rows w))
    by (intros k; apply list_sort_of_key).
  split; [exact S|].
  intros x y E B.
  apply (precedes_filter_elim (of_key (key_of w) (key_of w y))).
  rewrite S. apply precedes_filter_intro; [exact E| apply key_eq_refl | exact B].
Qed.

(** C8.  [query_supplies] leaves the whole state as it was: the collection,
    its order, the objects and every view attribute. *)
Theorem C8_query_no_side_effect (w : World) :
  let w' := (query_supplies w).2 in
  w' = w
  /\ supplies (self w') = supplies (self w)
  /\ records w' = records w
  /\ self w' = self w.
Proof. cbv zeta. repeat split. Qed.

(** C9.  With a [sort_by] other than "name", "quantity" and "updated"
    (the empty string included), [query_supplies] sorts, and answers, as it
    does with [sort_by = "name"]: by the lower-cased name. *)
Theorem C9_sort_by_fallback (w : World) :
  sort_by (self w) <> "name" -> sort_by (self w) <> "quantity" ->
  sort_by (self w) <> "updated" ->
  sorted_rows w
  = list_sort (fun s => KStr (Str.lower (Supply.name (heap w s))))
              (String.eqb (sort_dir (self w)) "desc") (filtered_rows w)
  /\ sorted_rows w = sorted_rows (with_view (set_sort_by "name") w)
  /\ returned (query_supplies w)
     = returned (query_supplies (with_view (set_sort_by "name") w)).
Proof.
  intros H1 H2 H3.
  assert (E : sorted_rows w = sorted_rows (with_view (set_sort_by "name") w)).
  { unfold sorted_rows. apply list_sort_ext. intros s.
    now apply sort_key_fallback. }
  split; [|split; [exact E|]].
  - rewrite E. reflexivity.
  - unfold returned, query_supplies. cbn [fst]. now rewrite E.
Qed.

(** Where every quantity is a number, as in this model of the collection:
    with a [sort_dir] other than exactly "desc", [query_supplies] sorts in
    ascending key order, as it does with "asc"; with "desc" the rows are in
    descending key order. *)
Theorem sort_dir_desc_only_for_numbers (w : World) :
  sort_dir (self w) <> "desc" ->
  sorted_rows w = stable_sort (key_of w) (filtered_rows w)
  /\ StronglySorted (asc (key_of w)) (sorted_rows w)
  /\ returned (query_supplies w)
     = returned (query_supplies (with_view (set_sort_dir "asc") w))
  /\ StronglySorted (desc (key_of w))
                    (sorted_rows (with_view (set_sort_dir "desc") w)).
Proof.
  intros H. apply String.eqb_neq in H.
  assert (T : forall x y, same_type (key_of w x) (key_of w y))
    by (intros; apply sort_key_one_type).
  assert (E : sorted_rows w = stable_sort (key_of w) (filtered_rows w))
    by (unfold sorted_rows; now rewrite H).
  split; [exact E|]. split; [|split].
  - rewrite E. now apply stable_sort_asc.
  - unfold returned, query_supplies. cbn [fst]. now rewrite E.
  - exact (list_sort_ordered (key_of w) T true (filtered_rows w)).
Qed.

(** ** The filter step *)

(** One early exit: the record goes on only if the condition is inactive
    or the test succeeds. *)
Lemma early_exit_iff (active test rest : bool) :
  (if active && negb test then false else rest) = true
  <-> (active = true -> test = true) /\ rest = true.
Proof. destruct active, test, rest; simpl; intuition congruence. Qed.

Lemma set_truthy_iff (X : gset string) : set_truthy X = true <-> X ≠ ∅.
Proof. unfold set_truthy. now rewrite bool_decide_eq_true. Qed.

Lemma set_mem_iff (x : string) (X : gset string) : set_mem x X = true <-> x ∈ X.
Proof. unfold set_mem. now rewrite bool_decide_eq_true. Qed.

Lemma str_or_empty (s : string) : str_or s "" = s.
Proof. now destruct s. Qed.

(** C7.  A record passes the filter step exactly when every active
    condition holds: the trimmed, lower-cased search query, if non-empty,
    occurs in the lower-cased join of name, category and space-joined tags;
    a non-empty category (unit) set contains the record's category (unit);
    a non-empty colour filter, lower-cased, occurs in the lower-cased
    colour; a non-empty tag filter, lower-cased, occurs in the lower-cased
    space-joined tags.  A record with an empty colour therefore fails
    under any non-empty colour filter. *)
Theorem C7_matches_filters_iff (a : AppState) (s : Supply.t) :
  let q := Str.strip (Str.lower (search_query a)) in
  (_matches_filters a s = true <->
     (q <> "" ->
      Str.substring_of q
        (Str.lower (Str.join " " [Supply.name s; Supply.category s;
                                  Str.join " " (Supply.tags s)])))
     /\ (filter_categories a ≠ ∅ -> Supply.category s ∈ filter_categories a)
     /\ (filter_units a ≠ ∅ -> Supply.unit s ∈ filter_units a)
     /\ (filter_color a <> "" ->
         Str.substring_of (Str.lower (filter_color a)) (Str.lower (Supply.color s)))
     /\ (filter_tags a <> "" ->
         Str.substring_of (Str.lower (filter_tags a))
                          (Str.lower (Str.join " " (Supply.tags s)))))
  /\ (filter_color a <> "" -> Supply.color s = "" -> _matches_filters a s = false).
Proof.
  cbv zeta.
  assert (M : _matches_filters a s = true <->
     (Str.strip (Str.lower (search_query a)) <> "" ->
      Str.substring_of (Str.strip (Str.lower (search_query a)))
        (Str.lower (Str.join " " [Supply.name s; Supply.category s;
                                  Str.join " " (Supply.tags s)])))
     /\ (filter_categories a ≠ ∅ -> Supply.category s ∈ filter_categories a)
     /\ (filter_units a ≠ ∅ -> Supply.unit s ∈ filter_units a)
     /\ (filter_color a <> "" ->
         Str.substring_of (Str.lower (filter_color a)) (Str.lower (Supply.color s)))
     /\ (filter_tags a <> "" ->
         Str.substring_of (Str.lower (filter_tags a))
                          (Str.lower (Str.join " " (Supply.tags s))))).
  { unfold _matches_filters. rewrite !early_exit_iff, str_or_empty.
    rewrite !StrFacts.truthy_true, !set_truthy_iff, !set_mem_iff,
      !StrFacts.contains_iff.
    intuition. }
  split; [exact M|].
  intros Hc He. apply not_true_iff_false. intros T.
  apply M in T as (_ & _ & _ & C & _). specialize (C Hc).
  apply StrFacts.contains_iff in C. rewrite He in C. simpl Str.lower in C.
  rewrite StrFacts.contains_in_nil in C; [discriminate|].
  now rewrite StrFacts.lower_nil.
Qed.

(** ** Supply operations *)

Lemma add_supply_unfold (now : Z) (s : ref) (w : World) :
  add_supply now s w
  = (Return s,
     mkWorld
       (fun r => if Nat.eqb r s
                 then Supply.set_updated now
                        (if Nat.eqb r s then Supply.set_id (next_id (self w)) (heap w r)
                         else heap w r)
                 else if Nat.eqb r s then Supply.set_id (next_id (self w)) (heap w r)
                      else heap w r)
       (set_supplies (supplies (self w) ++ [s])
                     (set_next_id (next_id (self w) + 1) (self w)))).
Proof. reflexivity. Qed.

(** The counter only grows: by one at each creation, not at all otherwise. *)
Lemma add_supply_next_id (now : Z) (s : ref) (w : World) :
  next_id (self (add_supply now s w).2) = next_id (self w) + 1.
Proof. reflexivity. Qed.

Lemma delete_supply_next_id (i : Z) (w : World) :
  next_id (self (delete_supply i w).2) = next_id (self w).
Proof. reflexivity. Qed.

Lemma update_supply_next_id (now : Z) (s : ref) (w : World) :
  next_id (self (update_supply now s w).2) = next_id (self w).
Proof. reflexivity. Qed.

Lemma add_supply_assigned_id (now : Z) (s : ref) (w : World) :
  Supply.id (heap (add_supply now s w).2 s) = next_id (self w).
Proof. rewrite add_supply_unfold. cbn. now rewrite Nat.eqb_refl. Qed.

Lemma add_supply_content (now : Z) (s : ref) (w : World) :
  Supply.same_content (heap (add_supply now s w).2 s) (heap w s).
Proof.
  rewrite add_supply_unfold. cbn. rewrite Nat.eqb_refl.
  unfold Supply.same_content. cbn. tauto.
Qed.

Lemma add_supply_other (now : Z) (s r : ref) (w : World) :
  r <> s -> heap (add_supply now s w).2 r = heap w r.
Proof.
  intros N. rewrite add_supply_unfold. cbn.
  apply Nat.eqb_neq in N. now rewrite N.
Qed.

Lemma add_supply_ids (now : Z) (s : ref) (w : World) :
  ~ In s (supplies (self w)) ->
  ids (add_supply now s w).2 = ids w ++ [next_id (self w)].
Proof.
  intros F. unfold ids, records.
  replace (supplies (self (add_supply now s w).2))
    with (supplies (self w) ++ [s]) by reflexivity.
  rewrite !map_app. cbn [map]. rewrite add_supply_assigned_id. f_equal.
  rewrite !map_map. apply map_ext_in. intros r I.
  rewrite add_supply_other; [reflexivity|]. intros ->. now apply F.
Qed.

(** Where every id of the collection is below the counter, creating a
    record from a fresh object keeps the ids distinct and the counter
    ahead. *)
Lemma add_supply_unique (now : Z) (s : ref) (w : World) :
  ~ In s (supplies (self w)) -> counter_ahead w -> NoDup (ids w) ->
  NoDup (ids (add_supply now s w).2) /\ counter_ahead (add_supply now s w).2.
Proof.
  intros F C U. unfold counter_ahead in *.
  rewrite add_supply_ids by exact F. rewrite add_supply_next_id. split.
  - apply NoDup_app. split; [exact U|]. split; [|apply NoDup_singleton].
    intros i I J. apply list_elem_of_In in I, J.
    rewrite List.Forall_forall in C. apply C in I.
    destruct J as [<-|[]]. lia.
  - apply Forall_app. split.
    + eapply List.Forall_impl; [|exact C]. cbn. intros; lia.
    + constructor; [lia|constructor].
Qed.

Lemma delete_supply_ids (i : Z) (w : World) :
  ids (delete_supply i w).2 = List.filter (fun j => negb (j =? i)) (ids w).
Proof.
  unfold ids, records, delete_supply. cbn.
  induction (supplies (self w)) as [|r l IH]; cbn; [reflexivity|].
  destruct (Supply.id (heap w r) =? i); cbn; now rewrite IH.
Qed.

(** Deleting keeps the ids distinct and the counter ahead, and removes
    every record with the given id. *)
Lemma delete_supply_unique (i : Z) (w : World) :
  counter_ahead w -> NoDup (ids w) ->
  NoDup (ids (delete_supply i w).2) /\ counter_ahead (delete_supply i w).2
  /\ ~ In i (ids (delete_supply i w).2).
Proof.
  intros C U. unfold counter_ahead in *.
  rewrite delete_supply_ids, delete_supply_next_id. split; [|split].
  - apply NoDup_ListNoDup, List.NoDup_filter, NoDup_ListNoDup, U.
  - apply List.Forall_forall. intros j I. apply List.filter_In in I as [I _].
    rewrite List.Forall_forall in C. now apply C.
  - intros I. apply List.filter_In in I as [_ I].
    rewrite Z.eqb_refl in I. discriminate.
Qed.

(** The seeded state starts with the counter behind ten of its ids. *)
Lemma init_counter_behind : ~ counter_ahead init.
Proof.
  unfold counter_ahead. intros C. rewrite List.Forall_forall in C.
  specialize (C 13). cbn in C. assert (13 < 4); [|lia].
  apply C. vm_compute. tauto.
Qed.

Lemma find_loop_after_add (h h' : ref -> Supply.t) (n : Z) (s : ref) (l : list ref) :
  Supply.id (h' s) = n ->
  (forall r, r <> s -> h' r = h r) ->
  find_loop h n l = None ->
  find_loop h' n (l ++ [s]) = Some s.
Proof.
  intros Hs Ho. induction l as [|r l IH]; cbn.
  - now rewrite Hs, Z.eqb_refl.
  - destruct (Supply.id (h r) =? n) eqn:E; [discriminate|]. intros N.
    destruct (Nat.eq_dec r s) as [->|D].
    + now rewrite Hs, Z.eqb_refl.
    + rewrite (Ho r D), E. now apply IH.
Qed.

(** Where no record of the collection has the id the counter holds,
    creating a record and looking its id up gives the record back, with the
    content of the draft. *)
Lemma add_then_find_when_id_free (now : Z) (s : ref) (w : World) :
  find_loop (heap w) (next_id (self w)) (supplies (self w)) = None ->
  let w1 := (add_supply now s w).2 in
  returned (find_by_id (Supply.id (heap w1 s)) w1) = Some (Some s)
  /\ Supply.same_content (heap w1 s) (heap w s).
Proof.
  intros N. cbv zeta. split; [|apply add_supply_content].
  rewrite add_supply_assigned_id. unfold returned, find_by_id. cbn [fst].
  replace (supplies (self (add_supply now s w).2))
    with (supplies (self w) ++ [s]) by reflexivity.
  erewrite find_loop_after_add; [reflexivity| | |exact N].
  - apply add_supply_assigned_id.
  - intros r D. now apply add_supply_other.
Qed.

(** C1.  Creation in the seeded state: the new record is given the id 4,
    which the seeded record "Worsted Yarn Red" carries, so the ids of the
    live records are no longer distinct. *)
Theorem C1_add_supply_reuses_seed_id (now : Z) (draft : Supply.t) :
  let w0 := alloc 13%nat draft init in
  let w1 := (add_supply now 13%nat w0).2 in
  returned (add_supply now 13%nat w0) = Some 13%nat
  /\ supplies (self w1) = supplies (self init) ++ [13%nat]
  /\ Supply.id (heap w1 13%nat) = 4
  /\ Supply.id (heap w1 3%nat) = 4
  /\ Supply.name (heap w1 3%nat) = "Worsted Yarn Red"
  /\ ~ NoDup (ids w1).
Proof.
  cbv zeta. repeat (split; [reflexivity|]).
  assert (E : ids (add_supply now 13%nat (alloc 13%nat draft init)).2
              = [1; 2; 3; 4; 5; 6; 7; 8; 9; 10; 11; 12; 13; 4]) by reflexivity.
  rewrite E. apply (bool_decide_eq_false_1 (NoDup _)). vm_compute. reflexivity.
Qed.

(** C2.  Creation followed by a lookup of the assigned id, in the seeded
    state: the lookup answers with the seeded record "Worsted Yarn Red", not
    with the record just created, and its content is not the draft's. *)
Theorem C2_find_after_add_gives_seed_record (now : Z) :
  let w0 := alloc 13%nat silk_draft init in
  let w1 := (add_supply now 13%nat w0).2 in
  let assigned := Supply.id (heap w1 13%nat) in
  returned (add_supply now 13%nat w0) = Some 13%nat
  /\ assigned = 4
  /\ returned (find_by_id assigned w1) = Some (Some 3%nat)
  /\ Supply.name (heap w1 3%nat) = "Worsted Yarn Red"
  /\ ~ Supply.same_content (heap w1 3%nat) silk_draft.
Proof.
  cbv zeta. repeat (split; [reflexivity|]).
  intros (N & _). cbn in N. discriminate.
Qed.

(** C3, as stated, fails: [update_supply] on a record whose id no record of
    the collection has returns normally; no error is raised. *)
Lemma C3_update_absent_id_returns :
  returned (find_by_id (Supply.id (heap stray_world 13%nat)) stray_world) = Some None
  /\ (update_supply 5 13%nat stray_world).1 = Return tt
  /\ (update_supply 5 13%nat stray_world).1 <> Raise "NotFoundError".
Proof. split; [reflexivity|]. split; [reflexivity|discriminate]. Qed.

(** C3, amended.  [update_supply] takes the record, not an id, and always
    returns: it sets the record's [updated] to the current time and changes
    nothing else, so a record outside the collection leaves the collection's
    records as they were.  The lookup by id is the edit form's: for an
    absent id it shows "Item not found." and changes nothing; for a present
    id it applies the field changes to the record found and refreshes its
    [updated]. *)
Theorem C3_update_supply_refreshes (now : Z) (s : ref) (w : World) :
  let w' := (update_supply now s w).2 in
  (update_supply now s w).1 = Return tt
  /\ self w' = self w
  /\ (forall r, heap w' r
                = if Nat.eqb r s then Supply.set_updated now (heap w r) else heap w r)
  /\ (~ In s (supplies (self w)) -> records w' = records w)
  /\ forall (i : Z) (f : Form),
       match find_loop (heap w) i (supplies (self w)) with
       | None =>
           DetailScreen_save now (Some i) f w
           = (Return (Some (show_banner "error" "Item not found.")), w)
       | Some r =>
           let w2 := (DetailScreen_save now (Some i) f w).2 in
           (DetailScreen_save now (Some i) f w).1
           = Return (Some (show_banner "success" "Saved successfully."))
           /\ self w2 = self w
           /\ forall r', heap w2 r'
                         = if Nat.eqb r' r
                           then Supply.set_updated now (apply_form f (heap w r'))
                           else heap w r'
       end.
Proof.
  cbv zeta. repeat (split; [reflexivity|]). split.
  - intros F. unfold records. cbn. apply map_ext_in. intros r I.
    destruct (Nat.eqb_spec r s) as [->|]; [now elim F | reflexivity].
  - intros i f.
    destruct (find_loop (heap w) i (supplies (self w))) as [r|] eqn:E.
    + unfold DetailScreen_save, find_by_id, mbind, Py_bind. rewrite E. cbn.
      repeat (split; [reflexivity|]). intros r'.
      now destruct (Nat.eqb r' r).
    + unfold DetailScreen_save, find_by_id, mbind, Py_bind. now rewrite E.
Qed.

(** ** Instances *)

Lemma C3_update_supply_refreshes_witness :
  ~ In 13%nat (supplies (self init))
  /\ records (update_supply 5 13%nat init).2 = records init.
Proof.
  assert (F : ~ In 13%nat (supplies (self init))).
  { cbn. intros H. repeat (destruct H as [H|H]; [discriminate|]). exact H. }
  split; [exact F|].
  exact (proj1 (proj2 (proj2 (proj2 (C3_update_supply_refreshes 5 13%nat init)))) F).
Defined.

Lemma C5_page_window_witness :
  0 <= page_index (self second_page)
  /\ 1 <= page_size (self second_page)
  /\ exists page,
       query_supplies second_page
       = (Return (page, Z.of_nat (length (sorted_rows second_page))), second_page)
       /\ page = firstn (Z.to_nat 10) (skipn (Z.to_nat (1 * 10)) (sorted_rows second_page))
       /\ Z.of_nat (length page)
          = Z.min 10 (Z.max 0 (Z.of_nat (length (sorted_rows second_page)) - 1 * 10))
       /\ (Z.of_nat (length (sorted_rows second_page)) <= 1 * 10 -> page = []).
Proof.
  split; [cbn; lia|]. split; [cbn; lia|].
  apply (C5_page_window second_page); cbn; lia.
Defined.

Lemma sort_stable_for_numbers_witness :
  key_eq (key_of by_quantity_desc 7%nat) (key_of by_quantity_desc 9%nat) = true
  /\ precedes 7%nat 9%nat (filtered_rows by_quantity_desc)
  /\ precedes 7%nat 9%nat (sorted_rows by_quantity_desc).
Proof.
  assert (B : precedes 7%nat 9%nat (filtered_rows by_quantity_desc)).
  { exists (seq 0 7), [8%nat], (seq 10 3). reflexivity. }
  split; [reflexivity|]. split; [exact B|].
  exact (proj2 (sort_stable_for_numbers by_quantity_desc) 7%nat 9%nat eq_refl B).
Defined.

Lemma C7_matches_filters_iff_witness :
  filter_color blue_filter <> ""
  /\ Supply.color (nth 2 seed blank) = ""
  /\ _matches_filters blue_filter (nth 2 seed blank) = false
  /\ Str.substring_of (Str.lower (filter_color blue_filter))
                      (Str.lower (Supply.color (nth 0 seed blank)))
  /\ _matches_filters blue_filter (nth 0 seed blank) = true.
Proof.
  assert (N : filter_color blue_filter <> "") by discriminate.
  assert (B : Str.substring_of (Str.lower (filter_color blue_filter))
                (Str.lower (Supply.color (nth 0 seed blank))))
    by (exists "", ""; reflexivity).
  split; [exact N|]. split; [reflexivity|]. split.
  - exact (proj2 (C7_matches_filters_iff blue_filter (nth 2 seed blank)) N eq_refl).
  - split; [exact B|].
    apply (proj1 (C7_matches_filters_iff blue_filter (nth 0 seed blank))).
    split; [intros H; now elim H|].
    split; [intros H; now elim H|].
    split; [intros H; now elim H|].
    split; [intros _; exact B|].
    intros H; now elim H.
Defined.

Lemma C9_sort_by_fallback_witness :
  sort_by (self no_sort_by) <> "name"
  /\ sort_by (self no_sort_by) <> "quantity"
  /\ sort_by (self no_sort_by) <> "updated"
  /\ returned (query_supplies no_sort_by)
     = returned (query_supplies (with_view (set_sort_by "name") no_sort_by)).
Proof.
  assert (H1 : sort_by (self no_sort_by) <> "name") by discriminate.
  assert (H2 : sort_by (self no_sort_by) <> "quantity") by discriminate.
  assert (H3 : sort_by (self no_sort_by) <> "updated") by discriminate.
  split; [exact H1|]. split; [exact H2|]. split; [exact H3|].
  exact (proj2 (proj2 (C9_sort_by_fallback no_sort_by H1 H2 H3))).
Defined.

Lemma sort_dir_desc_only_for_numbers_witness :
  sort_dir (self upper_desc) <> "desc"
  /\ StronglySorted (asc (key_of upper_desc)) (sorted_rows upper_desc)
  /\ returned (query_supplies upper_desc)
     = returned (query_supplies (with_view (set_sort_dir "asc") upper_desc)).
Proof.
  assert (H : sort_dir (self upper_desc) <> "desc") by discriminate.
  split; [exact H|].
  destruct (sort_dir_desc_only_for_numbers upper_desc H) as (_ & S & R & _).
  split; [exact S | exact R].
Defined.

(** * Further properties of the code *)

(** ** Lookup, deletion, creation, editing *)

Lemma find_loop_some (h : ref -> Supply.t) (i : Z) (l : list ref) (r : ref) :
  find_loop h i l = Some r ->
  Supply.id (h r) = i
  /\ exists before after, l = before ++ r :: after
       /\ Forall (fun x => Supply.id (h x) <> i) before.
Proof.
  induction l as [|x l IH]; cbn; [discriminate|].
  destruct (Z.eqb_spec (Supply.id (h x)) i) as [E|N].
  - intros [= <-]. split; [exact E|]. exists [], l. split; [reflexivity|constructor].
  - intros F. destruct (IH F) as (E & before & after & -> & B).
    split; [exact E|]. exists (x :: before), after.
    split; [reflexivity|]. now constructor.
Qed.

Lemma find_loop_none (h : ref -> Supply.t) (i : Z) (l : list ref) :
  find_loop h i l = None <-> Forall (fun x => Supply.id (h x) <> i) l.
Proof.
  induction l as [|x l IH]; cbn.
  - split; [constructor | reflexivity].
  - destruct (Z.eqb_spec (Supply.id (h x)) i) as [E|N].
    + split; [discriminate|]. intros F. inversion F; subst. congruence.
    + rewrite IH. split; [now constructor | intros F; now inversion F].
Qed.

(** The lookup reads the ids only. *)
Lemma find_loop_same_ids (h h' : ref -> Supply.t) (i : Z) (l : list ref) :
  (forall x, Supply.id (h' x) = Supply.id (h x)) ->
  find_loop h' i l = find_loop h i l.
Proof.
  intros E. induction l as [|x l IH]; cbn; [reflexivity|].
  now rewrite E, IH.
Qed.

Lemma find_loop_filter_same (h : ref -> Supply.t) (i : Z) (l : list ref) :
  find_loop h i (List.filter (fun x => negb (Supply.id (h x) =? i)) l) = None.
Proof.
  induction l as [|x l IH]; cbn; [reflexivity|].
  destruct (Supply.id (h x) =? i) eqn:E; cbn; [exact IH|]. now rewrite E.
Qed.

Lemma find_loop_filter_other (h : ref -> Supply.t) (i j : Z) (l : list ref) :
  j <> i ->
  find_loop h j (List.filter (fun x => negb (Supply.id (h x) =? i)) l)
  = find_loop h j l.
Proof.
  intros N. induction l as [|x l IH]; cbn; [reflexivity|].
  destruct (Z.eqb_spec (Supply.id (h x)) i) as [E|D]; cbn.
  - rewrite IH. destruct (Z.eqb_spec (Supply.id (h x)) j); [congruence|reflexivity].
  - now rewrite IH.
Qed.

Lemma filter_all {A} (P : A -> bool) (l : list A) :
  Forall (fun x => P x = true) l -> List.filter P l = l.
Proof.
  induction 1 as [|x l Px _ IH]; cbn; [reflexivity|]. now rewrite Px, IH.
Qed.

(** [find_by_id] changes nothing and answers with the first record of the
    collection, in collection order, that carries the id; it answers [None]
    exactly when no record carries it. *)
Theorem find_by_id_first_match (i : Z) (w : World) :
  (find_by_id i w).2 = w
  /\ match returned (find_by_id i w) with
     | Some (Some r) =>
         Supply.id (heap w r) = i
         /\ exists before after,
              supplies (self w) = before ++ r :: after
              /\ Forall (fun x => Supply.id (heap w x) <> i) before
     | Some None => Forall (fun x => Supply.id (heap w x) <> i) (supplies (self w))
     | None => False
     end.
Proof.
  split; [reflexivity|]. unfold returned, find_by_id. cbn [fst].
  destruct (find_loop (heap w) i (supplies (self w))) as [r|] eqn:E.
  - now apply find_loop_some.
  - now apply find_loop_none.
Qed.

(** [delete_supply] returns normally, touches no object, and keeps exactly
    the records with another id, in their order; afterwards a lookup of the
    deleted id finds nothing and a lookup of any other id answers as
    before. *)
Theorem delete_supply_removes_id (i : Z) (w : World) :
  let w' := (delete_supply i w).2 in
  (delete_supply i w).1 = Return tt
  /\ heap w' = heap w
  /\ records w' = List.filter (fun r => negb (Supply.id r =? i)) (records w)
  /\ returned (find_by_id i w') = Some None
  /\ (forall j, j <> i -> returned (find_by_id j w') = returned (find_by_id j w)).
Proof.
  cbv zeta. split; [reflexivity|]. split; [reflexivity|]. split; [|split].
  - unfold records, delete_supply. cbn.
    induction (supplies (self w)) as [|r l IH]; cbn; [reflexivity|].
    destruct (Supply.id (heap w r) =? i); cbn; now rewrite IH.
  - unfold returned, find_by_id, delete_supply. cbn.
    now rewrite find_loop_filter_same.
  - intros j N. unfold returned, find_by_id, delete_supply. cbn.
    now rewrite find_loop_filter_other.
Qed.

(** Deleting an id that no record carries is not an error and leaves the
    whole state as it was. *)
Theorem delete_supply_absent_id (i : Z) (w : World) :
  returned (find_by_id i w) = Some None ->
  delete_supply i w = (Return tt, w).
Proof.
  unfold returned, find_by_id. cbn [fst]. intros E.
  assert (N : find_loop (heap w) i (supplies (self w)) = None)
    by (destruct (find_loop (heap w) i (supplies (self w))); congruence).
  apply find_loop_none in N. unfold delete_supply, assign.
  rewrite filter_all.
  - destruct w as [h a]. destruct a. reflexivity.
  - eapply List.Forall_impl; [|exact N]. cbn. intros x D.
    now apply negb_true_iff, Z.eqb_neq.
Qed.

(** [add_supply] on an object that is not yet in the collection returns
    that object, puts it last, gives it the id of the counter and the time
    of the call, moves the counter on by one, and leaves every other object
    and the order of the collection as they were. *)
Theorem add_supply_appends (now : Z) (s : ref) (w : World) :
  ~ In s (supplies (self w)) ->
  let w' := (add_supply now s w).2 in
  returned (add_supply now s w) = Some s
  /\ records w'
     = records w
       ++ [Supply.set_updated now (Supply.set_id (next_id (self w)) (heap w s))]
  /\ next_id (self w') = next_id (self w) + 1
  /\ (forall r, r <> s -> heap w' r = heap w r).
Proof.
  intros F. cbv zeta. split; [reflexivity|]. split; [|split].
  - unfold records.
    replace (supplies (self (add_supply now s w).2))
      with (supplies (self w) ++ [s]) by reflexivity.
    rewrite map_app. f_equal.
    + apply map_ext_in. intros r I. apply add_supply_other. intros ->. now apply F.
    + rewrite add_supply_unfold. cbn. now rewrite Nat.eqb_refl.
  - reflexivity.
  - intros r N. now apply add_supply_other.
Qed.

(** Where no record of the collection carries the id the counter holds,
    [add_supply] followed by [find_by_id] of the assigned id gives back the
    created record, whose content is that of the draft. *)
Theorem add_then_find_round_trip (now : Z) (s : ref) (w : World) :
  returned (find_by_id (next_id (self w)) w) = Some None ->
  let w1 := (add_supply now s w).2 in
  returned (find_by_id (Supply.id (heap w1 s)) w1) = Some (Some s)
  /\ Supply.id (heap w1 s) = next_id (self w)
  /\ Supply.updated (heap w1 s) = now
  /\ Supply.same_content (heap w1 s) (heap w s).
Proof.
  unfold returned at 1. unfold find_by_id at 1. cbn [fst]. intros E.
  assert (N : find_loop (heap w) (next_id (self w)) (supplies (self w)) = None)
    by (destruct (find_loop (heap w) (next_id (self w)) (supplies (self w)));
        congruence).
  cbv zeta. split; [|split; [|split]].
  - rewrite add_supply_assigned_id. unfold returned, find_by_id. cbn [fst].
    replace (supplies (self (add_supply now s w).2))
      with (supplies (self w) ++ [s]) by reflexivity.
    erewrite find_loop_after_add; [reflexivity| | |exact N].
    + apply add_supply_assigned_id.
    + intros r D. now apply add_supply_other.
  - apply add_supply_assigned_id.
  - rewrite add_supply_unfold. cbn. now rewrite Nat.eqb_refl.
  - apply add_supply_content.
Qed.

Lemma DetailScreen_save_found (now i : Z) (f : Form) (w : World) (r : ref) :
  find_loop (heap w) i (supplies (self w)) = Some r ->
  DetailScreen_save now (Some i) f w
  = (Return (Some (show_banner "success" "Saved successfully.")),
     mkWorld
       (fun r' => if Nat.eqb r' r
                  then Supply.set_updated now
                         (if Nat.eqb r' r then apply_form f (heap w r') else heap w r')
                  else if Nat.eqb r' r then apply_form f (heap w r') else heap w r')
       (self w)).
Proof.
  intros E. unfold DetailScreen_save, find_by_id, mbind, Py_bind. now rewrite E.
Qed.

Lemma DetailScreen_save_ids (now : Z) (current_id : option Z) (f : Form)
    (w : World) (x : ref) :
  Supply.id (heap (DetailScreen_save now current_id f w).2 x) = Supply.id (heap w x).
Proof.
  destruct current_id as [i|]; [|reflexivity].
  destruct (find_loop (heap w) i (supplies (self w))) as [r|] eqn:E.
  - rewrite (DetailScreen_save_found _ _ _ _ _ E). cbn.
    now destruct (Nat.eqb x r).
  - unfold DetailScreen_save, find_by_id, mbind, Py_bind. now rewrite E.
Qed.

Lemma DetailScreen_save_self (now : Z) (current_id : option Z) (f : Form) (w : World) :
  self (DetailScreen_save now current_id f w).2 = self w.
Proof.
  destruct current_id as [i|]; [|reflexivity].
  destruct (find_loop (heap w) i (supplies (self w))) as [r|] eqn:E.
  - now rewrite (DetailScreen_save_found _ _ _ _ _ E).
  - unfold DetailScreen_save, find_by_id, mbind, Py_bind. now rewrite E.
Qed.

(** Saving the edit form for an id that is present, then looking the id
    up, gives the same record, now holding the values of the form, the time
    of the save and its old id; the order of the collection, its ids and the
    view are as before. *)
Theorem save_then_find_round_trip (now i : Z) (f : Form) (w : World) (r : ref) :
  returned (find_by_id i w) = Some (Some r) ->
  let w2 := (DetailScreen_save now (Some i) f w).2 in
  returned (find_by_id i w2) = Some (Some r)
  /\ heap w2 r
     = Supply.mk i (f_name f) (f_category f) (f_quantity f) (f_unit f)
                 (f_color f) (f_brand f) (f_tags f) (f_notes f) now
  /\ self w2 = self w
  /\ ids w2 = ids w.
Proof.
  unfold returned at 1. unfold find_by_id at 1. cbn [fst]. intros E.
  assert (F : find_loop (heap w) i (supplies (self w)) = Some r)
    by (destruct (find_loop (heap w) i (supplies (self w))); congruence).
  cbv zeta. split; [|split; [|split]].
  - unfold returned, find_by_id. cbn [fst].
    rewrite DetailScreen_save_self.
    rewrite (find_loop_same_ids (heap w)); [now rewrite F|].
    intros x. apply DetailScreen_save_ids.
  - rewrite (DetailScreen_save_found _ _ _ _ _ F). cbn.
    rewrite Nat.eqb_refl. apply find_loop_some in F as [<- _]. reflexivity.
  - apply DetailScreen_save_self.
  - unfold ids, records. rewrite DetailScreen_save_self, !map_map.
    apply map_ext. intros x. apply DetailScreen_save_ids.
Qed.

(** ** Sessions *)

Lemma alloc_ids (s : ref) (d : Supply.t) (w : World) :
  ~ In s (supplies (self w)) -> ids (alloc s d w) = ids w.
Proof.
  intros F. unfold ids, records, alloc. cbn. rewrite !map_map.
  apply map_ext_in. intros r I.
  destruct (Nat.eqb_spec r s) as [->|]; [now elim F | reflexivity].
Qed.

Lemma perform_keeps_ids_distinct (act : Action) (w : World) :
  match act with
  | Create _ s _ => ~ In s (supplies (self w))
  | _ => True
  end ->
  counter_ahead w -> NoDup (ids w) ->
  NoDup (ids (perform act w)) /\ counter_ahead (perform act w).
Proof.
  destruct act as [now s d | now i f | i]; intros F C U; cbn [perform].
  - apply add_supply_unique.
    + exact F.
    + unfold counter_ahead in *. now rewrite alloc_ids.
    + now rewrite alloc_ids.
  - assert (E : ids (DetailScreen_save now (Some i) f w).2 = ids w).
    { unfold ids, records. rewrite DetailScreen_save_self, !map_map.
      apply map_ext. intros x. apply DetailScreen_save_ids. }
    unfold counter_ahead in *. rewrite E, DetailScreen_save_self. now split.
  - destruct (delete_supply_unique i w C U) as (U' & C' & _). now split.
Qed.

(** Once every id of the collection is below the counter and the ids are
    distinct, they stay so through any session of creations from new
    objects, edits and deletions: no id is ever given twice. *)
Theorem session_keeps_ids_distinct (acts : list Action) (w : World) :
  counter_ahead w -> NoDup (ids w) -> new_objects w acts ->
  NoDup (ids (run acts w)) /\ counter_ahead (run acts w).
Proof.
  revert w. induction acts as [|act acts IH]; intros w C U N; cbn.
  - now split.
  - destruct N as [F N].
    destruct (perform_keeps_ids_distinct act w F C U) as [U' C'].
    now apply IH.
Qed.


(** ** Pages *)

Lemma window_In {A} (l : list A) (n m : nat) (x : A) :
  In x (firstn n (skipn m l)) -> In x l.
Proof.
  intros I. rewrite <- (firstn_skipn m l). apply in_or_app. right.
  rewrite <- (firstn_skipn n (skipn m l)). apply in_or_app. now left.
Qed.

Lemma window_NoDup {A} (l : list A) (n m : nat) :
  List.NoDup l -> List.NoDup (firstn n (skipn m l)).
Proof.
  intros U. rewrite <- (firstn_skipn m l) in U.
  apply List.NoDup_app_remove_l in U.
  rewrite <- (firstn_skipn n (skipn m l)) in U.
  now apply List.NoDup_app_remove_r in U.
Qed.

Lemma firstn_plus {A} (a b : nat) (l : list A) :
  firstn (a + b) l = firstn a l ++ firstn b (skipn a l).
Proof.
  revert l. induction a as [|a IH]; intros l; [reflexivity|].
  destruct l as [|x l]; cbn.
  - now rewrite firstn_nil.
  - now rewrite IH.
Qed.

Lemma sorted_rows_In (w : World) (r : ref) :
  In r (sorted_rows w) -> In r (supplies (self w)) /\ passes w r = true.
Proof.
  intros I. apply List.filter_In.
  eapply Permutation_in; [|exact I].
  symmetry. apply list_sort_perm.
Qed.

Lemma sorted_rows_NoDup (w : World) :
  List.NoDup (supplies (self w)) -> List.NoDup (sorted_rows w).
Proof.
  intros U. eapply Permutation_NoDup; [apply list_sort_perm|].
  now apply List.NoDup_filter.
Qed.

(** The page of a non-negative index, for a page size of at least 1. *)
Lemma page_at_window (w : World) (i : Z) :
  0 <= i -> 1 <= page_size (self w) ->
  page_at w i
  = firstn (Z.to_nat (page_size (self w)))
           (skipn (Z.to_nat (i * page_size (self w))) (sorted_rows w)).
Proof.
  intros Hi Hs. unfold page_at, returned, query_supplies. cbn [fst].
  change (page_index (self (with_view (set_page_index i) w))) with i.
  change (page_size (self (with_view (set_page_index i) w))) with (page_size (self w)).
  change (sorted_rows (with_view (set_page_index i) w)) with (sorted_rows w).
  assert (0 <= i * page_size (self w)) by nia.
  now rewrite slice_window by lia.
Qed.

(** Whatever the page index and the page size are, [query_supplies]
    returns normally, and its page holds only records of the collection
    that pass the filter step, no more of them than the total it reports,
    and none twice unless the collection lists it twice. *)
Theorem query_page_from_collection (w : World) :
  exists page total,
    query_supplies w = (Return (page, total), w)
    /\ Forall (fun r => In r (supplies (self w))
                        /\ _matches_filters (self w) (heap w r) = true) page
    /\ Z.of_nat (length page) <= total
    /\ (List.NoDup (supplies (self w)) -> List.NoDup page).
Proof.
  eexists _, _. split; [reflexivity|]. unfold slice. split; [|split].
  - apply List.Forall_forall. intros r I.
    apply window_In in I. now apply sorted_rows_In.
  - rewrite length_firstn, length_skipn. lia.
  - intros U. now apply window_NoDup, sorted_rows_NoDup.
Qed.

(** For a page size of at least 1, the pages of the indices 0, 1, 2, ...
    laid end to end are the sorted rows from the start: paging skips no row
    and repeats none, and enough pages give every row. *)
Theorem pages_cover_rows (w : World) (n : nat) :
  1 <= page_size (self w) ->
  concat (map (fun k => page_at w (Z.of_nat k)) (seq 0 n))
  = firstn (n * Z.to_nat (page_size (self w))) (sorted_rows w)
  /\ (match_count w <= Z.of_nat n * page_size (self w) ->
      concat (map (fun k => page_at w (Z.of_nat k)) (seq 0 n)) = sorted_rows w).
Proof.
  intros Hs.
  assert (E : forall n,
    concat (map (fun k => page_at w (Z.of_nat k)) (seq 0 n))
    = firstn (n * Z.to_nat (page_size (self w))) (sorted_rows w)).
  { clear n. induction n as [|n IH]; [reflexivity|].
    rewrite seq_S, map_app, concat_app, IH. cbn [map concat Nat.add].
    rewrite app_nil_r, page_at_window by lia.
    replace (S n * Z.to_nat (page_size (self w)))%nat
      with (n * Z.to_nat (page_size (self w)) + Z.to_nat (page_size (self w)))%nat
      by lia.
    rewrite firstn_plus. do 3 f_equal. lia. }
  split; [apply E|].
  intros Hn. rewrite E. apply firstn_all2.
  unfold match_count in Hn. rewrite sorted_rows_length. nia.
Qed.

(** ** The pagination bar *)

(** The ceiling of [t / s] is the least count of pages of [s] rows that
    hold [t] rows. *)
Lemma ceil_bounds (t s : Z) :
  1 <= s -> (- (- t / s) - 1) * s < t <= - (- t / s) * s.
Proof.
  intros Hs. pose proof (Z.div_mod (- t) s ltac:(lia)) as D.
  pose proof (Z.mod_pos_bound (- t) s ltac:(lia)) as B. nia.
Qed.

Lemma pages_bounds (w : World) :
  1 <= page_size (self w) ->
  1 <= pages w
  /\ match_count w <= pages w * page_size (self w)
  /\ (0 < match_count w -> (pages w - 1) * page_size (self w) < match_count w).
Proof.
  intros Hs. unfold pages.
  pose proof (ceil_bounds (match_count w) (page_size (self w)) Hs) as B.
  assert (0 <= match_count w) by (unfold match_count; lia).
  split; [lia|]. split; [nia|]. intros P.
  assert (1 <= - (- match_count w / page_size (self w))); [nia|].
  rewrite Z.max_r by lia. lia.
Qed.

Lemma with_view_page_index_same (w : World) :
  with_view (set_page_index (page_index (self w))) w = w.
Proof. destruct w as [h a]. now destruct a. Qed.

Lemma page_count_unfold (total : Z) (w : World) :
  page_size (self w) <> 0 ->
  page_count total w = (Return (Z.max 1 (- (- total / page_size (self w)))), w).
Proof.
  intros Hs. unfold page_count, mbind, Py_bind, mret, Py_ret, attr, lift, ceil_div.
  apply Z.eqb_neq in Hs. now rewrite Hs.
Qed.

Lemma _go_page_unfold (delta : Z) (w : World) :
  page_size (self w) <> 0 ->
  _go_page delta w
  = (Return tt,
     let new_index := Z.max 0 (Z.min (page_index (self w) + delta) (pages w - 1)) in
     if new_index =? page_index (self w) then w
     else with_view (set_page_index new_index) w).
Proof.
  intros Hs.
  unfold _go_page, page_count, mbind, Py_bind, mret, Py_ret, attr, lift,
    query_supplies, ceil_div.
  apply Z.eqb_neq in Hs. rewrite Hs. cbn beta iota zeta.
  rewrite sorted_rows_length. fold (match_count w). fold (pages w).
  now destruct (_ =? page_index (self w)).
Qed.

Lemma window_nonempty {A} (l : list A) (n m : nat) :
  (0 < n)%nat -> (m < length l)%nat -> firstn n (skipn m l) <> [].
Proof.
  intros Hn Hm E. apply (f_equal (@length A)) in E.
  rewrite length_firstn, length_skipn in E. cbn in E. lia.
Qed.

Lemma query_at_index (w : World) (i : Z) :
  returned (query_supplies (with_view (set_page_index i) w))
  = Some (page_at w i, match_count w).
Proof.
  unfold page_at, returned, query_supplies, match_count. cbn [fst].
  change (sorted_rows (with_view (set_page_index i) w)) with (sorted_rows w).
  now rewrite sorted_rows_length.
Qed.

Lemma go_page_state (delta : Z) (w : World) :
  1 <= page_size (self w) ->
  (_go_page delta w).2
  = with_view
      (set_page_index (Z.max 0 (Z.min (page_index (self w) + delta) (pages w - 1)))) w
  /\ 0 <= Z.max 0 (Z.min (page_index (self w) + delta) (pages w - 1)) < pages w.
Proof.
  intros Hs. rewrite _go_page_unfold by lia. cbv zeta. cbn [snd].
  destruct (pages_bounds w Hs) as (P1 & _ & _). split; [|lia].
  destruct (Z.eqb_spec (Z.max 0 (Z.min (page_index (self w) + delta) (pages w - 1)))
                       (page_index (self w))) as [E|N]; [|reflexivity].
  rewrite E. symmetry. apply with_view_page_index_same.
Qed.

Lemma page_at_nonempty (w : World) (i : Z) :
  1 <= page_size (self w) -> 0 <= i < pages w -> 0 < match_count w ->
  page_at w i <> [].
Proof.
  intros Hs R P. destruct (pages_bounds w Hs) as (_ & _ & P3).
  rewrite page_at_window by lia. apply window_nonempty; [lia|].
  rewrite sorted_rows_length. specialize (P3 P). unfold match_count in *. nia.
Qed.

(** [_go_page], for a page size of at least 1, returns normally and moves
    the page index by [delta], held within the first and the last page;
    nothing else changes.  The index it leaves is that of an existing page,
    whatever it was before, so the page then queried is not empty when any
    record matches. *)
Theorem go_page_stays_in_range (delta : Z) (w : World) :
  1 <= page_size (self w) ->
  let w' := (_go_page delta w).2 in
  let index' := page_index (self w') in
  (_go_page delta w).1 = Return tt
  /\ index' = Z.max 0 (Z.min (page_index (self w) + delta) (pages w - 1))
  /\ 0 <= index' < pages w
  /\ w' = with_view (set_page_index index') w
  /\ returned (query_supplies w') = Some (page_at w index', match_count w)
  /\ (0 < match_count w -> page_at w index' <> []).
Proof.
  intros Hs. cbv zeta. destruct (go_page_state delta w Hs) as [W R].
  split; [now rewrite _go_page_unfold by lia|].
  rewrite W. cbn [with_view self page_index set_page_index].
  split; [reflexivity|]. split; [exact R|]. split; [reflexivity|]. split.
  - apply query_at_index.
  - intros P. now apply page_at_nonempty.
Qed.

(** For a page size of at least 1: "Prev" on the first page and "Next" on
    the last page change nothing, and from a page that is not the last one
    "Next" followed by "Prev" leads back to the state it started from. *)
Theorem go_page_next_prev (w : World) :
  1 <= page_size (self w) ->
  (page_index (self w) = 0 -> _go_page (-1) w = (Return tt, w))
  /\ (page_index (self w) = pages w - 1 -> _go_page 1 w = (Return tt, w))
  /\ (0 <= page_index (self w) < pages w - 1 ->
      (_go_page (-1) (_go_page 1 w).2).2 = w).
Proof.
  intros Hs. destruct (pages_bounds w Hs) as (P1 & _ & _).
  split; [|split].
  - intros E. rewrite _go_page_unfold by lia. cbv zeta.
    replace (Z.max 0 (Z.min (page_index (self w) + -1) (pages w - 1)))
      with (page_index (self w)) by lia.
    now rewrite Z.eqb_refl.
  - intros E. rewrite _go_page_unfold by lia. cbv zeta.
    replace (Z.max 0 (Z.min (page_index (self w) + 1) (pages w - 1)))
      with (page_index (self w)) by lia.
    now rewrite Z.eqb_refl.
  - intros R. rewrite (_go_page_unfold 1 w) by lia. cbv zeta. cbn [snd].
    replace (Z.max 0 (Z.min (page_index (self w) + 1) (pages w - 1)))
      with (page_index (self w) + 1) by lia.
    destruct (Z.eqb_spec (page_index (self w) + 1) (page_index (self w))); [lia|].
    rewrite _go_page_unfold by (cbn; lia). cbv zeta. cbn [snd].
    change (pages (with_view (set_page_index (page_index (self w) + 1)) w))
      with (pages w).
    change (page_index (self (with_view (set_page_index (page_index (self w) + 1)) w)))
      with (page_index (self w) + 1).
    replace (Z.max 0 (Z.min (page_index (self w) + 1 + -1) (pages w - 1)))
      with (page_index (self w)) by lia.
    destruct (Z.eqb_spec (page_index (self w)) (page_index (self w) + 1)); [lia|].
    destruct w as [h a]. now destruct a.
Qed.

Lemma range_In (a b x : Z) : In x (range a b) <-> a <= x < b.
Proof.
  unfold range. rewrite in_map_iff. split.
  - intros (k & <- & I). apply in_seq in I. lia.
  - intros R. exists (Z.to_nat (x - a)). split; [lia|]. apply in_seq. lia.
Qed.

Lemma _rebuild_page_buttons_unfold (total : Z) (w : World) :
  page_size (self w) <> 0 ->
  _rebuild_page_buttons total w
  = (Return
       (let count := Z.max 1 (- (- total / page_size (self w))) in
        let cur := page_index (self w) in
        let end_ := Z.min count (Z.max 0 (cur - 3) + 7) in
        mkPager (map (fun i => (i, i =? cur)) (range (Z.max 0 (end_ - 7)) end_))
                (0 <? cur) (cur <? count - 1)),
     w).
Proof.
  intros Hs.
  unfold _rebuild_page_buttons, mbind, Py_bind. rewrite page_count_unfold by exact Hs.
  reflexivity.
Qed.

Lemma current_button (total : Z) (w : World) :
  1 <= page_size (self w) ->
  0 <= page_index (self w) < Z.max 1 (- (- total / page_size (self w))) ->
  exists bar,
    _rebuild_page_buttons total w = (Return bar, w)
    /\ In (page_index (self w), true) (page_buttons bar).
Proof.
  intros Hs R. eexists. split; [now rewrite _rebuild_page_buttons_unfold by lia|].
  cbn [page_buttons]. apply in_map_iff. exists (page_index (self w)).
  split; [now rewrite Z.eqb_refl|]. apply range_In. lia.
Qed.

(** [_rebuild_page_buttons], for a page size of at least 1 and a total
    from 0 to below 2^53 (where the page count is exact), changes nothing
    and lays out a run of consecutive page buttons inside the
    existing pages: seven of them, or one per page when there are fewer
    than seven pages.  The button of the current page is the disabled one,
    and it is part of the run whenever the current index is that of an
    existing page.  "Prev" is enabled exactly after the first page and
    "Next" exactly before the last. *)
Theorem page_buttons_window (total : Z) (w : World) :
  1 <= page_size (self w) -> 0 <= total < 2 ^ 53 ->
  let count := Z.max 1 (- (- total / page_size (self w))) in
  let cur := page_index (self w) in
  exists bar first,
    _rebuild_page_buttons total w = (Return bar, w)
    /\ map fst (page_buttons bar) = range first (first + Z.min count 7)
    /\ 0 <= first /\ first + Z.min count 7 <= count
    /\ Forall (fun b => b.2 = (b.1 =? cur)) (page_buttons bar)
    /\ (0 <= cur < count -> In (cur, true) (page_buttons bar))
    /\ (prev_enabled bar = true <-> 0 < cur)
    /\ (next_enabled bar = true <-> cur < count - 1).
Proof.
  intros Hs _. cbv zeta.
  set (count := Z.max 1 (- (- total / page_size (self w)))).
  set (cur := page_index (self w)).
  set (end_ := Z.min count (Z.max 0 (cur - 3) + 7)).
  exists (mkPager (map (fun i => (i, i =? cur)) (range (Z.max 0 (end_ - 7)) end_))
                  (0 <? cur) (cur <? count - 1)),
         (Z.max 0 (end_ - 7)).
  assert (E : Z.max 0 (end_ - 7) + Z.min count 7 = end_) by (subst end_ count; lia).
  split; [now rewrite _rebuild_page_buttons_unfold by lia|].
  cbn [page_buttons prev_enabled next_enabled]. rewrite E.
  split; [|split; [lia|split; [subst end_; lia|split; [|split; [|split]]]]].
  - rewrite map_map. cbn. apply List.map_id.
  - apply List.Forall_forall. intros b I.
    apply in_map_iff in I as (i & <- & _). reflexivity.
  - intros R. apply in_map_iff. exists cur.
    split; [now rewrite Z.eqb_refl|]. apply range_In. subst end_. lia.
  - apply Z.ltb_lt.
  - apply Z.ltb_lt.
Qed.

(** After [_go_page], for a page size of at least 1, [refresh_table] draws
    the page just reached: its rows are the rows of that page, not empty
    when any record matches, the label counts them against the number of
    matches, and the disabled button of the bar is that of the page. *)
Theorem refresh_after_go_page (delta : Z) (w : World) :
  1 <= page_size (self w) ->
  let w' := (_go_page delta w).2 in
  exists table,
    refresh_table w' = (Return table, w')
    /\ table_rows table = page_at w (page_index (self w'))
    /\ shown table = Z.of_nat (length (table_rows table))
    /\ of_total table = match_count w
    /\ (0 < match_count w -> 0 < shown table <= page_size (self w))
    /\ In (page_index (self w'), true) (page_buttons (pager table)).
Proof.
  intros Hs. cbv zeta. destruct (go_page_state delta w Hs) as [W R].
  rewrite W.
  set (i := Z.max 0 (Z.min (page_index (self w) + delta) (pages w - 1))) in *.
  set (w' := with_view (set_page_index i) w).
  destruct (current_button (match_count w) w' Hs R) as (bar & B & C).
  assert (Q : query_supplies w' = (Return (page_at w i, match_count w), w')).
  { unfold query_supplies, page_at, returned, match_count. cbn [fst].
    now rewrite (sorted_rows_length w'). }
  exists (mkTable (page_at w i) (Z.of_nat (length (page_at w i))) (match_count w) bar).
  split.
  - unfold refresh_table, mbind, Py_bind. rewrite Q, B. reflexivity.
  - cbn [table_rows shown of_total pager].
    split; [reflexivity|]. split; [reflexivity|]. split; [reflexivity|].
    split; [|exact C].
    intros P. pose proof (page_at_nonempty w i Hs R P) as N.
    rewrite page_at_window in * by lia. rewrite length_firstn.
    destruct (firstn _ _) eqn:F in N; [congruence|].
    apply (f_equal (@length ref)) in F. rewrite length_firstn in F.
    cbn in F. lia.
Qed.

(** ** Blanks and case *)

Module StripFacts.
Import Str.

Lemma is_space_lower_char (c : ascii) : is_space (lower_char c) = is_space c.
Proof. destruct c as [[] [] [] [] [] [] [] []]; reflexivity. Qed.

Lemma lower_char_idem (c : ascii) : lower_char (lower_char c) = lower_char c.
Proof. destruct c as [[] [] [] [] [] [] [] []]; reflexivity. Qed.

Lemma lower_idem (s : string) : lower (lower s) = lower s.
Proof.
  induction s as [|c s IH]; cbn; [reflexivity|].
  now rewrite lower_char_idem, IH.
Qed.

Lemma lower_lstrip (s : string) : lower (lstrip s) = lstrip (lower s).
Proof.
  induction s as [|c s IH]; cbn; [reflexivity|].
  rewrite is_space_lower_char. now destruct (is_space c).
Qed.

Lemma lower_rstrip (s : string) : lower (rstrip s) = rstrip (lower s).
Proof.
  induction s as [|c s IH]; cbn; [reflexivity|].
  rewrite <- IH, is_space_lower_char.
  destruct (rstrip s); cbn; [|reflexivity]. now destruct (is_space c).
Qed.

Lemma lower_strip (s : string) : lower (strip s) = strip (lower s).
Proof. unfold strip. now rewrite lower_rstrip, lower_lstrip. Qed.

Lemma rstrip_idem (s : string) : rstrip (rstrip s) = rstrip s.
Proof.
  induction s as [|c s IH]; cbn; [reflexivity|].
  destruct (rstrip s) as [|d r] eqn:E.
  - destruct (is_space c) eqn:Sc; cbn; [reflexivity|]. now rewrite Sc.
  - change (rstrip (String c (String d r)))
      with (match rstrip (String d r) with
            | EmptyString => if is_space c then EmptyString else String c EmptyString
            | String x y => String c (String x y)
            end).
    now rewrite IH.
Qed.

(** What [lstrip] leaves is empty or starts with a character that is not
    blank. *)
Lemma lstrip_head (s : string) :
  lstrip s = "" \/ exists c t, lstrip s = String c t /\ is_space c = false.
Proof.
  induction s as [|c s IH]; cbn; [now left|].
  destruct (is_space c) eqn:Sc; [exact IH|]. right. eauto.
Qed.

Lemma rstrip_keeps_head (c : ascii) (t : string) :
  is_space c = false -> exists r, rstrip (String c t) = String c r.
Proof.
  intros Sc. cbn. destruct (rstrip t); [rewrite Sc|]; eauto.
Qed.

Lemma strip_idem (s : string) : strip (strip s) = strip s.
Proof.
  unfold strip. destruct (lstrip_head s) as [E|(c & t & E & Sc)].
  - now rewrite E.
  - rewrite E. destruct (rstrip_keeps_head c t Sc) as [r R].
    rewrite R. cbn [lstrip]. rewrite Sc, <- R. apply rstrip_idem.
Qed.

Lemma rstrip_nil (s : string) : rstrip s = "" <-> blank_text s.
Proof.
  unfold blank_text. induction s as [|c s IH]; cbn.
  - split; [constructor | reflexivity].
  - destruct (rstrip s) as [|d r].
    + destruct (is_space c) eqn:Sc.
      * split; [|reflexivity]. intros _. constructor; [exact Sc|].
        now apply IH.
      * split; [discriminate|]. intros F. inversion F; subst. congruence.
    + split; [discriminate|]. intros F. inversion F; subst.
      assert (N : String d r = "") by now apply IH. discriminate.
Qed.

Lemma lstrip_blank (s : string) : blank_text (lstrip s) <-> blank_text s.
Proof.
  unfold blank_text. induction s as [|c s IH]; cbn; [reflexivity|].
  destruct (is_space c) eqn:Sc; [|reflexivity].
  rewrite IH. split; [now constructor | intros F; now inversion F].
Qed.

(** [strip] leaves nothing exactly of a text made of blanks only. *)
Lemma strip_nil (s : string) : strip s = "" <-> blank_text s.
Proof. unfold strip. now rewrite rstrip_nil, lstrip_blank. Qed.

End StripFacts.

Lemma matches_by_query (q1 q2 : string) (a : AppState) (s : Supply.t) :
  Str.strip (Str.lower q1) = Str.strip (Str.lower q2) ->
  _matches_filters (set_search_query q1 a) s
  = _matches_filters (set_search_query q2 a) s.
Proof.
  intros E. unfold _matches_filters.
  cbn [search_query set_search_query filter_categories filter_units
       filter_color filter_tags].
  now rewrite E.
Qed.

(** The search ignores letter case and surrounding blanks in the search
    text, and a search text of blanks only filters nothing, like the empty
    text. *)
Theorem search_ignores_case_and_blanks (text : string) (a : AppState) (s : Supply.t) :
  _matches_filters (set_search_query (Str.strip text) a) s
  = _matches_filters (set_search_query text a) s
  /\ _matches_filters (set_search_query (Str.lower text) a) s
     = _matches_filters (set_search_query text a) s
  /\ (blank_text text ->
      _matches_filters (set_search_query text a) s
      = _matches_filters (set_search_query "" a) s).
Proof.
  split; [|split].
  - apply matches_by_query.
    now rewrite StripFacts.lower_strip, StripFacts.strip_idem.
  - apply matches_by_query. now rewrite StripFacts.lower_idem.
  - intros B. apply matches_by_query.
    rewrite <- StripFacts.lower_strip.
    apply StripFacts.strip_nil in B. now rewrite B.
Qed.

Lemma matches_without_filters (a : AppState) (s : Supply.t) :
  blank_text (search_query a) ->
  filter_categories a = ∅ -> filter_units a = ∅ ->
  filter_color a = "" -> filter_tags a = "" ->
  _matches_filters a s = true.
Proof.
  intros B Ec Eu Eo Et. unfold _matches_filters.
  rewrite <- StripFacts.lower_strip.
  apply StripFacts.strip_nil in B. rewrite B, Ec, Eu, Eo, Et. reflexivity.
Qed.

(** With a blank search text and no category, unit, colour or tag filter,
    every record of the collection passes: the query reports the whole
    collection, and its sorted rows are the collection rearranged. *)
Theorem no_filter_shows_all (w : World) :
  blank_text (search_query (self w)) ->
  filter_categories (self w) = ∅ -> filter_units (self w) = ∅ ->
  filter_color (self w) = "" -> filter_tags (self w) = "" ->
  filtered_rows w = supplies (self w)
  /\ Permutation (supplies (self w)) (sorted_rows w)
  /\ exists page,
       returned (query_supplies w)
       = Some (page, Z.of_nat (length (supplies (self w)))).
Proof.
  intros B Ec Eu Eo Et.
  assert (F : filtered_rows w = supplies (self w)).
  { unfold filtered_rows. apply filter_all. apply List.Forall_forall.
    intros r _. now apply matches_without_filters. }
  split; [exact F|]. split.
  - unfold sorted_rows. rewrite F. apply list_sort_perm.
  - eexists. unfold returned, query_supplies. cbn [fst].
    now rewrite sorted_rows_length, F.
Qed.

(** ** Handlers that return to the first page *)

Lemma first_page (w : World) :
  1 <= page_size (self w) -> page_index (self w) = 0 ->
  exists page,
    query_supplies w = (Return (page, match_count w), w)
    /\ page = firstn (Z.to_nat (page_size (self w))) (sorted_rows w)
    /\ (page = [] <-> match_count w = 0).
Proof.
  intros Hs Hi.
  exists (firstn (Z.to_nat (page_size (self w))) (sorted_rows w)).
  split; [|split; [reflexivity|]].
  - unfold query_supplies, match_count. rewrite sorted_rows_length, Hi.
    cbn [Z.mul Z.add]. now rewrite slice_window by lia.
  - unfold match_count. rewrite <- sorted_rows_length.
    destruct (sorted_rows w) as [|r l].
    + now rewrite firstn_nil.
    + destruct (Z.to_nat (page_size (self w))) eqn:E; [lia|].
      cbn. split; [discriminate | lia].
Qed.

(** [_apply_search] stores the search text without its surrounding blanks
    and goes back to the first page; nothing else changes.  For a page size
    of at least 1 the page then queried is the head of the sorted matches,
    empty only when nothing matches. *)
Theorem apply_search_first_page (ent_search : string) (w : World) :
  1 <= page_size (self w) ->
  let w' := (_apply_search ent_search w).2 in
  (_apply_search ent_search w).1 = Return tt
  /\ w' = with_view (fun a => set_page_index 0 (set_search_query (Str.strip ent_search) a)) w
  /\ exists page,
       query_supplies w' = (Return (page, match_count w'), w')
       /\ page = firstn (Z.to_nat (page_size (self w))) (sorted_rows w')
       /\ (page = [] <-> match_count w' = 0).
Proof.
  intros Hs. cbv zeta. split; [reflexivity|]. split; [reflexivity|].
  apply (first_page (_apply_search ent_search w).2); [exact Hs | reflexivity].
Qed.

Lemma ticked_iff (vars : list (string * bool)) (k : string) :
  k ∈ ticked vars <-> In (k, true) vars.
Proof.
  unfold ticked. rewrite elem_of_list_to_set, list_elem_of_In, in_map_iff. split.
  - intros ([k' b] & <- & I). apply List.filter_In in I as [I B].
    cbn in B. now subst b.
  - intros I. exists (k, true). split; [reflexivity|].
    apply List.filter_In. now split.
Qed.

(** [SortFilterDialog._apply] stores the sort choice, the ticked
    categories and units and the colour and tag texts without their
    surrounding blanks, and goes back to the first page; the collection,
    the search text and the user are untouched.  A colour or tag text of
    blanks only switches that filter off.  For a page size of at least 1
    the page then queried is the head of the sorted matches, empty only
    when nothing matches. *)
Theorem dialog_apply_first_page (sort_var dir_var : string)
    (vars_cat vars_unit : list (string * bool)) (ent_color ent_tags : string)
    (w : World) :
  1 <= page_size (self w) ->
  let call := SortFilterDialog_apply sort_var dir_var vars_cat vars_unit
                                     ent_color ent_tags w in
  let w' := call.2 in
  call.1 = Return tt
  /\ heap w' = heap w
  /\ supplies (self w') = supplies (self w)
  /\ search_query (self w') = search_query (self w)
  /\ current_user (self w') = current_user (self w)
  /\ sort_by (self w') = sort_var /\ sort_dir (self w') = dir_var
  /\ (forall k, k ∈ filter_categories (self w') <-> In (k, true) vars_cat)
  /\ (forall k, k ∈ filter_units (self w') <-> In (k, true) vars_unit)
  /\ filter_color (self w') = Str.strip ent_color
  /\ filter_tags (self w') = Str.strip ent_tags
  /\ (blank_text ent_color -> filter_color (self w') = "")
  /\ (blank_text ent_tags -> filter_tags (self w') = "")
  /\ page_index (self w') = 0
  /\ exists page,
       query_supplies w' = (Return (page, match_count w'), w')
       /\ page = firstn (Z.to_nat (page_size (self w))) (sorted_rows w')
       /\ (page = [] <-> match_count w' = 0).
Proof.
  intros Hs. cbv zeta.
  repeat (split; [reflexivity|]).
  split; [intros k; apply ticked_iff|].
  split; [intros k; apply ticked_iff|].
  split; [reflexivity|]. split; [reflexivity|].
  split; [intros B; now apply StripFacts.strip_nil|].
  split; [intros B; now apply StripFacts.strip_nil|].
  split; [reflexivity|].
  apply (first_page (SortFilterDialog_apply sort_var dir_var vars_cat vars_unit
                                            ent_color ent_tags w).2);
    [exact Hs | reflexivity].
Qed.

(** ** Deleting while on a later page *)

(** [DetailScreen._delete] leaves the view as it is, the page index
    included.  So when the matches left no longer reach the current page,
    the query that follows returns an empty page, whether or not records
    still match. *)
Theorem delete_keeps_page_index (i : Z) (w : World) :
  0 <= page_index (self w) -> 1 <= page_size (self w) ->
  let w' := (DetailScreen_delete (Some i) w).2 in
  (DetailScreen_delete (Some i) w).1 = Return (Some (show_banner "info" "Item deleted."))
  /\ page_index (self w') = page_index (self w)
  /\ page_size (self w') = page_size (self w)
  /\ match_count w' <= match_count w
  /\ (match_count w' <= page_index (self w) * page_size (self w) ->
      query_supplies w' = (Return ([], match_count w'), w')).
Proof.
  intros Hi Hs. cbv zeta.
  split; [reflexivity|]. split; [reflexivity|]. split; [reflexivity|]. split.
  - unfold match_count, filtered_rows.
    change (supplies (self (DetailScreen_delete (Some i) w).2))
      with (List.filter (fun x => negb (Supply.id (heap w x) =? i)) (supplies (self w))).
    change (passes (DetailScreen_delete (Some i) w).2) with (passes w).
    induction (supplies (self w)) as [|r l IH]; cbn; [lia|].
    destruct (Supply.id (heap w r) =? i); cbn; destruct (passes w r); cbn in *; lia.
  - intros Hm. unfold query_supplies.
    change (page_index (self (DetailScreen_delete (Some i) w).2))
      with (page_index (self w)).
    change (page_size (self (DetailScreen_delete (Some i) w).2))
      with (page_size (self w)).
    assert (0 <= page_index (self w) * page_size (self w)) by nia.
    rewrite slice_window by lia.
    unfold match_count in *. rewrite <- sorted_rows_length in *.
    rewrite skipn_all2 by lia. now rewrite firstn_nil.
Qed.

(** ** Logging in and out *)

Lemma truthy_strip (s : string) : Str.truthy (Str.strip s) = false <-> blank_text s.
Proof. now rewrite StrFacts.truthy_false, StripFacts.strip_nil. Qed.

(** On ASCII texts, where [strip] is exactly Python's: [_login] refuses,
    with a warning and no change of state, exactly when the user name or
    the password is blank.  Otherwise it accepts, whatever
    the password is: the user becomes the name without its surrounding
    blanks, which is not empty, and nothing else changes.  [_do_logout]
    then clears the user and keeps the rest, the collection included. *)
Theorem login_accepts_any_nonblank (ent_user ent_pass : string) (w : World) :
  1 <= page_size (self w) -> ascii_text ent_user -> ascii_text ent_pass ->
  let call := LoginScreen_login ent_user ent_pass w in
  (blank_text ent_user \/ blank_text ent_pass ->
   call = (Return (show_banner "warn" "Please enter both username and password."), w))
  /\ (~ blank_text ent_user -> ~ blank_text ent_pass ->
      call.1 = Return (show_banner "success"
                         ("Welcome, " ++ Str.strip ent_user ++ "!")%string)
      /\ call.2 = with_view (set_current_user (Some (Str.strip ent_user))) w
      /\ Str.strip ent_user <> ""
      /\ App_do_logout call.2
         = (Return (show_banner "info" "Logged out."),
            with_view (set_current_user None) w)).
Proof.
  intros _ _ _. cbv zeta. unfold LoginScreen_login. split.
  - intros B.
    assert (T : negb (Str.truthy (Str.strip ent_user))
                || negb (Str.truthy (Str.strip ent_pass)) = true).
    { apply orb_true_iff. destruct B as [B|B]; [left|right];
        apply negb_true_iff; now apply truthy_strip. }
    now rewrite T.
  - intros Bu Bp.
    assert (Tu : Str.truthy (Str.strip ent_user) = true).
    { destruct (Str.truthy (Str.strip ent_user)) eqn:T; [reflexivity|].
      apply truthy_strip in T. contradiction. }
    assert (Tp : Str.truthy (Str.strip ent_pass) = true).
    { destruct (Str.truthy (Str.strip ent_pass)) eqn:T; [reflexivity|].
      apply truthy_strip in T. contradiction. }
    rewrite Tu, Tp. cbn [negb orb].
    split; [reflexivity|]. split; [reflexivity|].
    split; [now apply StrFacts.truthy_true|reflexivity].
Qed.

(** ** Instances of the further properties *)

(** Closes a closed goal on numbers or lists by evaluation. *)
Ltac by_evaluation :=
  vm_compute;
  repeat match goal with
         | |- _ /\ _ => split
         | |- _ = _ => reflexivity
         | |- _ -> False => let H := fresh in intros H; discriminate H
         | |- True => exact I
         end.

Lemma not_in_seed_13 : ~ In 13%nat (supplies (self init)).
Proof.
  cbn. intros H. repeat (destruct H as [H|H]; [discriminate H|]). exact H.
Defined.

Lemma delete_supply_removes_id_witness :
  5 <> 4
  /\ returned (find_by_id 5 (delete_supply 4 init).2) = returned (find_by_id 5 init).
Proof.
  assert (N : 5 <> 4) by discriminate.
  split; [exact N|].
  exact (proj2 (proj2 (proj2 (proj2 (delete_supply_removes_id 4 init)))) 5 N).
Defined.

Lemma delete_supply_absent_id_witness :
  returned (find_by_id 99 init) = Some None
  /\ delete_supply 99 init = (Return tt, init).
Proof.
  split; [reflexivity|]. apply delete_supply_absent_id. reflexivity.
Defined.

Lemma add_supply_appends_witness :
  ~ In 13%nat (supplies (self init))
  /\ records (add_supply 7 13%nat init).2
     = records init
       ++ [Supply.set_updated 7 (Supply.set_id (next_id (self init)) (heap init 13%nat))].
Proof.
  split; [exact not_in_seed_13|].
  exact (proj1 (proj2 (add_supply_appends 7 13%nat init not_in_seed_13))).
Defined.

Lemma add_then_find_round_trip_witness :
  returned (find_by_id (next_id (self counter_fixed)) counter_fixed) = Some None
  /\ returned (find_by_id (Supply.id (heap (add_supply 7 13%nat counter_fixed).2 13%nat))
                          (add_supply 7 13%nat counter_fixed).2)
     = Some (Some 13%nat).
Proof.
  split; [reflexivity|].
  exact (proj1 (add_then_find_round_trip 7 13%nat counter_fixed eq_refl)).
Defined.

Lemma save_then_find_round_trip_witness :
  returned (find_by_id 3 init) = Some (Some 2%nat)
  /\ returned (find_by_id 3
        (DetailScreen_save 9 (Some 3)
           (mkForm "5mm Needles" "Tool" 2 "pair" "" "" [] "") init).2)
     = Some (Some 2%nat).
Proof.
  split; [reflexivity|].
  exact (proj1 (save_then_find_round_trip 9 3
                  (mkForm "5mm Needles" "Tool" 2 "pair" "" "" [] "") init 2%nat eq_refl)).
Defined.

Lemma session_keeps_ids_distinct_witness :
  counter_ahead counter_fixed
  /\ NoDup (ids counter_fixed)
  /\ new_objects counter_fixed sample_session
  /\ NoDup (ids (run sample_session counter_fixed))
  /\ counter_ahead (run sample_session counter_fixed).
Proof.
  assert (C : counter_ahead counter_fixed).
  { unfold counter_ahead. apply List.Forall_forall. intros i H.
    vm_compute in H. repeat (destruct H as [<-|H]; [reflexivity|]). destruct H. }
  assert (U : NoDup (ids counter_fixed)).
  { apply (bool_decide_eq_true_1 (NoDup _)). vm_compute. reflexivity. }
  assert (N : new_objects counter_fixed sample_session).
  { vm_compute. repeat split;
      intros H; repeat (destruct H as [H|H]; [discriminate H|]); exact H. }
  split; [exact C|]. split; [exact U|]. split; [exact N|].
  exact (session_keeps_ids_distinct sample_session counter_fixed C U N).
Defined.

Lemma query_page_from_collection_witness :
  List.NoDup (supplies (self init))
  /\ exists page total,
       query_supplies init = (Return (page, total), init) /\ List.NoDup page.
Proof.
  assert (U : List.NoDup (supplies (self init))) by apply List.seq_NoDup.
  split; [exact U|].
  destruct (query_page_from_collection init) as (page & total & Q & _ & _ & D).
  exists page, total. split; [exact Q | exact (D U)].
Defined.

Lemma pages_cover_rows_witness :
  1 <= page_size (self init)
  /\ match_count init <= Z.of_nat 2 * page_size (self init)
  /\ concat (map (fun k => page_at init (Z.of_nat k)) (seq 0 2)) = sorted_rows init.
Proof.
  assert (Hs : 1 <= page_size (self init)) by by_evaluation.
  assert (Hn : match_count init <= Z.of_nat 2 * page_size (self init)) by by_evaluation.
  split; [exact Hs|]. split; [exact Hn|].
  exact (proj2 (pages_cover_rows init 2 Hs) Hn).
Defined.

Lemma go_page_stays_in_range_witness :
  1 <= page_size (self second_page)
  /\ 0 < match_count second_page
  /\ (_go_page 5 second_page).1 = Return tt
  /\ 0 <= page_index (self (_go_page 5 second_page).2) < pages second_page
  /\ page_at second_page (page_index (self (_go_page 5 second_page).2)) <> [].
Proof.
  assert (Hs : 1 <= page_size (self second_page)) by by_evaluation.
  assert (Hm : 0 < match_count second_page) by by_evaluation.
  split; [exact Hs|]. split; [exact Hm|].
  destruct (go_page_stays_in_range 5 second_page Hs) as (R & _ & B & _ & _ & N).
  split; [exact R|]. split; [exact B | exact (N Hm)].
Defined.

Lemma go_page_next_prev_witness :
  1 <= page_size (self init)
  /\ page_index (self init) = 0
  /\ 0 <= page_index (self init) < pages init - 1
  /\ page_index (self second_page) = pages second_page - 1
  /\ _go_page (-1) init = (Return tt, init)
  /\ _go_page 1 second_page = (Return tt, second_page)
  /\ (_go_page (-1) (_go_page 1 init).2).2 = init.
Proof.
  assert (Hs : 1 <= page_size (self init)) by by_evaluation.
  assert (Hs2 : 1 <= page_size (self second_page)) by by_evaluation.
  assert (H0 : page_index (self init) = 0) by reflexivity.
  assert (H1 : 0 <= page_index (self init) < pages init - 1) by by_evaluation.
  assert (H2 : page_index (self second_page) = pages second_page - 1) by by_evaluation.
  split; [exact Hs|]. split; [exact H0|]. split; [exact H1|]. split; [exact H2|].
  split; [exact (proj1 (go_page_next_prev init Hs) H0)|].
  split; [exact (proj1 (proj2 (go_page_next_prev second_page Hs2)) H2)|].
  exact (proj2 (proj2 (go_page_next_prev init Hs)) H1).
Defined.

Lemma page_buttons_window_witness :
  1 <= page_size (self second_page)
  /\ 0 <= 13 < 2 ^ 53
  /\ exists bar,
       _rebuild_page_buttons 13 second_page = (Return bar, second_page)
       /\ In (1, true) (page_buttons bar).
Proof.
  assert (Hs : 1 <= page_size (self second_page)) by by_evaluation.
  assert (Ht : 0 <= 13 < 2 ^ 53) by by_evaluation.
  split; [exact Hs|]. split; [exact Ht|].
  destruct (page_buttons_window 13 second_page Hs Ht)
    as (bar & first & B & _ & _ & _ & _ & C & _).
  exists bar. split; [exact B|]. apply C. by_evaluation.
Defined.

Lemma refresh_after_go_page_witness :
  1 <= page_size (self init)
  /\ 0 < match_count init
  /\ exists table,
       refresh_table (_go_page 1 init).2 = (Return table, (_go_page 1 init).2)
       /\ 0 < shown table <= page_size (self init).
Proof.
  assert (Hs : 1 <= page_size (self init)) by by_evaluation.
  assert (Hm : 0 < match_count init) by by_evaluation.
  split; [exact Hs|]. split; [exact Hm|].
  destruct (refresh_after_go_page 1 init Hs) as (table & R & _ & _ & _ & S & _).
  exists table. split; [exact R | exact (S Hm)].
Defined.

Lemma blank_three : blank_text "   ".
Proof. unfold blank_text. cbn. repeat constructor. Defined.

Lemma search_ignores_case_and_blanks_witness :
  blank_text "   "
  /\ _matches_filters (set_search_query "   " (self init)) (heap init 0%nat)
     = _matches_filters (set_search_query "" (self init)) (heap init 0%nat).
Proof.
  split; [exact blank_three|].
  exact (proj2 (proj2 (search_ignores_case_and_blanks "   " (self init) (heap init 0%nat)))
               blank_three).
Defined.

Lemma no_filter_shows_all_witness :
  blank_text (search_query (self init))
  /\ filter_categories (self init) = ∅ /\ filter_units (self init) = ∅
  /\ filter_color (self init) = "" /\ filter_tags (self init) = ""
  /\ filtered_rows init = supplies (self init).
Proof.
  assert (B : blank_text (search_query (self init))) by constructor.
  split; [exact B|]. repeat (split; [reflexivity|]).
  exact (proj1 (no_filter_shows_all init B eq_refl eq_refl eq_refl eq_refl)).
Defined.

Lemma apply_search_first_page_witness :
  1 <= page_size (self init)
  /\ (_apply_search " cotton " init).2
     = with_view (fun a => set_page_index 0 (set_search_query (Str.strip " cotton ") a)) init.
Proof.
  assert (Hs : 1 <= page_size (self init)) by by_evaluation.
  split; [exact Hs|].
  exact (proj1 (proj2 (apply_search_first_page " cotton " init Hs))).
Defined.

Lemma dialog_apply_first_page_witness :
  1 <= page_size (self init)
  /\ blank_text "   "
  /\ filter_color
       (self (SortFilterDialog_apply "quantity" "desc"
                [("Yarn", true); ("Fabric", false)] [] "   " "wool" init).2) = "".
Proof.
  assert (Hs : 1 <= page_size (self init)) by by_evaluation.
  split; [exact Hs|]. split; [exact blank_three|].
  destruct (dialog_apply_first_page "quantity" "desc"
              [("Yarn", true); ("Fabric", false)] [] "   " "wool" init Hs)
    as (_ & _ & _ & _ & _ & _ & _ & _ & _ & _ & _ & B & _).
  exact (B blank_three).
Defined.

Lemma delete_keeps_page_index_witness :
  0 <= page_index (self eleven_left)
  /\ 1 <= page_size (self eleven_left)
  /\ match_count (DetailScreen_delete (Some 3) eleven_left).2
     <= page_index (self eleven_left) * page_size (self eleven_left)
  /\ 0 < match_count (DetailScreen_delete (Some 3) eleven_left).2
  /\ query_supplies (DetailScreen_delete (Some 3) eleven_left).2
     = (Return ([], match_count (DetailScreen_delete (Some 3) eleven_left).2),
        (DetailScreen_delete (Some 3) eleven_left).2).
Proof.
  assert (Hi : 0 <= page_index (self eleven_left)) by by_evaluation.
  assert (Hs : 1 <= page_size (self eleven_left)) by by_evaluation.
  assert (Hm : match_count (DetailScreen_delete (Some 3) eleven_left).2
               <= page_index (self eleven_left) * page_size (self eleven_left))
    by by_evaluation.
  split; [exact Hi|]. split; [exact Hs|]. split; [exact Hm|].
  split; [by_evaluation|].
  exact (proj2 (proj2 (proj2 (proj2 (delete_keeps_page_index 3 eleven_left Hi Hs)))) Hm).
Defined.

Lemma login_accepts_any_nonblank_witness :
  1 <= page_size (self init)
  /\ ascii_text " ann " /\ ascii_text "x" /\ ascii_text "   "
  /\ ~ blank_text " ann " /\ ~ blank_text "x"
  /\ blank_text "   "
  /\ (LoginScreen_login " ann " "x" init).2
     = with_view (set_current_user (Some (Str.strip " ann "))) init
  /\ LoginScreen_login " ann " "   " init
     = (Return (show_banner "warn" "Please enter both username and password."), init).
Proof.
  assert (Bu : ~ blank_text " ann ").
  { intros B. apply StripFacts.strip_nil in B. discriminate B. }
  assert (Bp : ~ blank_text "x").
  { intros B. apply StripFacts.strip_nil in B. discriminate B. }
  assert (Hs : 1 <= page_size (self init)) by by_evaluation.
  assert (Au : ascii_text " ann ") by (unfold ascii_text; cbn; repeat constructor).
  assert (Ap : ascii_text "x") by (unfold ascii_text; cbn; repeat constructor).
  assert (Ab : ascii_text "   ") by (unfold ascii_text; cbn; repeat constructor).
  split; [exact Hs|]. split; [exact Au|]. split; [exact Ap|]. split; [exact Ab|].
  split; [exact Bu|]. split; [exact Bp|]. split; [exact blank_three|]. split.
  - exact (proj1 (proj2 (proj2 (login_accepts_any_nonblank " ann " "x" init Hs Au Ap)
                               Bu Bp))).
  - exact (proj1 (login_accepts_any_nonblank " ann " "   " init Hs Au Ab)
                 (or_intror blank_three)).
Defined.

(** ** The check of the quantity *)






